(** * Announcements router: a shallow embedding and its specification

    The development follows [src/backend/routers/announcements.py].  The
    five endpoints are pure functions over an explicit database state; an
    [HTTPException] is a value of the [response] type, and the value of
    [datetime.utcnow()] is an argument [now].  What the router imports from
    Python libraries (the [datetime] class, [bson.ObjectId]) is kept behind
    the [Library] interface, with one executable instance, [PyLibrary.py],
    used to evaluate the endpoints on concrete requests.  The two
    collections the router imports from the [database] module are modelled
    as lists of documents with the operations the router calls on them:
    first for a store that keeps every date as it is given and does not
    fail, then, for the endpoints that write dates, for a store that
    encodes the dates it is given and fails on a date it cannot encode. *)

From Stdlib Require Import String Ascii List Bool ZArith NArith Lia.
From Stdlib Require Import Sorted Permutation.
Import ListNotations.

Open Scope string_scope.
Open Scope list_scope.

(** ** The imported library *)

(** [fromisoformat] and [ObjectId] raise on bad input; the router catches
    every exception they raise, so they are partial functions here.
    [timestamp] is the instant a BSON date stands for: the store filters
    and sorts dates by it. *)
Class Library : Type := {
  datetime : Type;
  fromisoformat : string -> option datetime;
  isoformat : datetime -> string;
  timestamp : datetime -> Z;
  ObjectId : string -> option N;
  str_of_oid : N -> string
}.

(** ** Responses *)

Inductive response (A : Type) : Type :=
| OK (body : A)
| HTTPException (status_code : nat) (detail : string).

Arguments OK {A} body.
Arguments HTTPException {A} status_code detail.

Definition bind {A B : Type} (r : response A) (k : A -> response B) : response B :=
  match r with
  | OK a => k a
  | HTTPException c d => HTTPException c d
  end.

Declare Scope response_scope.
Delimit Scope response_scope with response.
Notation "x <- r ;; k" := (bind r (fun x => k))
  (at level 100, r at next level, right associativity) : response_scope.

(** The error taxonomy of the service, by status code. *)
Definition Unauthorized {A} (r : response A) : Prop :=
  exists detail, r = HTTPException 401 detail.
Definition InvalidArgument {A} (r : response A) : Prop :=
  exists detail, r = HTTPException 400 detail.

(** Truthiness of an optional string, as in [if start_date:]. *)
Definition truthy (s : option string) : bool :=
  match s with
  | Some s => negb (s =? "")
  | None => false
  end.

(** The transport representation built by [_serialize]. *)
Module View.
Record t : Type := mk {
  id : string;
  message : option string;
  start_date : option string;
  end_date : option string;
  created_by : option string;
  created_at : option string
}.
End View.

Section Router.
Context {L : Library}.

(** ** Documents and collections *)

(** A document of the announcements collection.  [doc.get(k)] is the
    field [k]: [None] when the key is missing or holds null. *)
Record document : Type := mkDoc {
  _id : option N;
  message : option string;
  start_date : option datetime;
  end_date : option datetime;
  created_by : option string;
  created_at : option datetime
}.

(** Modelled from the spec: the [database] module, which provides
    [announcements_collection] and [teachers_collection].  The
    announcements are kept in insertion order and stored as they are given;
    a teacher record is its [_id], the username; [next_oid] is the next
    identifier the store hands out, so that ids are unique and never
    reused. *)
Record database : Type := mkDb {
  announcements_collection : list document;
  teachers_collection : list string;
  next_oid : N
}.

Definition with_announcements (db : database) (c : list document) : database :=
  mkDb c (teachers_collection db) (next_oid db).

(** Modelled from the spec: lookup by identifier in the teacher store,
    [teachers_collection.find_one({"_id": teacher_username})]. *)
Definition find_teacher (teacher_username : string) (db : database) : option string :=
  find (String.eqb teacher_username) (teachers_collection db).

(** Modelled from the spec: the operators of the filtered read, on a date
    field.  [gte] is [{"$gte": now}], [lte] is [{"$lte": now}], [is_null]
    is equality with [None], which a missing field satisfies too, and
    [exists_] is [{"$exists": True}]. *)
Definition gte (field : option datetime) (now : datetime) : bool :=
  match field with
  | Some d => (timestamp now <=? timestamp d)%Z
  | None => false
  end.

Definition lte (field : option datetime) (now : datetime) : bool :=
  match field with
  | Some d => (timestamp d <=? timestamp now)%Z
  | None => false
  end.

Definition is_null (field : option datetime) : bool :=
  match field with
  | Some _ => false
  | None => true
  end.

Definition exists_ (field : option datetime) : bool :=
  match field with
  | Some _ => true
  | None => false
  end.

(** Modelled from the spec: the sorted read.  Ascending order on
    [end_date], a missing date first; the sort is an insertion sort. *)
Definition end_date_leb (a b : document) : bool :=
  match end_date a, end_date b with
  | None, _ => true
  | Some _, None => false
  | Some x, Some y => (timestamp x <=? timestamp y)%Z
  end.

Fixpoint insert_sorted (d : document) (l : list document) : list document :=
  match l with
  | [] => [d]
  | x :: l' => if end_date_leb d x then d :: l else x :: insert_sorted d l'
  end.

(** [cursor.sort([("end_date", 1)])] *)
Definition sort_end_date (l : list document) : list document :=
  fold_right insert_sorted [] l.

Definition has_id (oid : N) (d : document) : bool :=
  match _id d with
  | Some o => (o =? oid)%N
  | None => false
  end.

(** Modelled from the spec: single-document read by id,
    [find_one({"_id": oid})]. *)
Definition find_one (oid : N) (c : list document) : option document :=
  find (has_id oid) c.

Definition set_id (d : document) (oid : N) : document :=
  mkDoc (Some oid) (message d) (start_date d) (end_date d) (created_by d) (created_at d).

(** Modelled from the spec: insert, [insert_one(doc)].  The document gets
    the next identifier as its [_id] and is appended; the result is
    [inserted_id] and the database. *)
Definition insert_one (d : document) (db : database) : N * database :=
  let inserted_id := next_oid db in
  (inserted_id,
   mkDb (announcements_collection db ++ [set_id d inserted_id])
        (teachers_collection db)
        (N.succ (next_oid db))).

(** The entries of the [update] dict of [update_announcement]. *)
Inductive set_entry : Type :=
| set_message (m : string)
| set_end_date (d : datetime)
| set_start_date (d : option datetime).

Definition set_field (d : document) (e : set_entry) : document :=
  match e with
  | set_message m =>
      mkDoc (_id d) (Some m) (start_date d) (end_date d) (created_by d) (created_at d)
  | set_end_date e =>
      mkDoc (_id d) (message d) (start_date d) (Some e) (created_by d) (created_at d)
  | set_start_date s =>
      mkDoc (_id d) (message d) s (end_date d) (created_by d) (created_at d)
  end.

(** [{"$set": update}] applied to one document. *)
Definition apply_set (update : list set_entry) (d : document) : document :=
  fold_left set_field update d.

(** Modelled from the spec: partial update by id,
    [update_one({"_id": oid}, {"$set": update})].  The first matching
    document is updated; the result is [matched_count] and the collection. *)
Fixpoint update_one (oid : N) (update : list set_entry) (c : list document)
  : nat * list document :=
  match c with
  | [] => (0, [])
  | d :: c' =>
      if has_id oid d then (1, apply_set update d :: c')
      else let (n, c'') := update_one oid update c' in (n, d :: c'')
  end.

(** Modelled from the spec: delete by id, [delete_one({"_id": oid})].
    The first matching document is removed; the result is [deleted_count]
    and the collection. *)
Fixpoint delete_one (oid : N) (c : list document) : nat * list document :=
  match c with
  | [] => (0, [])
  | d :: c' =>
      if has_id oid d then (1, c')
      else let (n, c'') := delete_one oid c' in (n, d :: c'')
  end.

(** ** The router *)

Definition _serialize (doc : document) : View.t :=
  View.mk
    (match _id doc with Some o => str_of_oid o | None => "None" end)
    (message doc)
    (match start_date doc with Some d => Some (isoformat d) | None => None end)
    (match end_date doc with Some d => Some (isoformat d) | None => None end)
    (created_by doc)
    (match created_at doc with Some d => Some (isoformat d) | None => None end).

(** The query of [get_active_announcements]. *)
Definition query (now : datetime) (doc : document) : bool :=
  gte (end_date doc) now
  && (is_null (start_date doc)
      || lte (start_date doc) now
      || negb (exists_ (start_date doc))).

Definition get_active_announcements (now : datetime) (db : database) : list View.t :=
  map _serialize (sort_end_date (filter (query now) (announcements_collection db))).

Definition get_all_announcements (teacher_username : string) (db : database)
  : response (list View.t) :=
  match find_teacher teacher_username db with
  | None => HTTPException 401 "Invalid teacher credentials"
  | Some _ => OK (map _serialize (sort_end_date (announcements_collection db)))
  end.

(** The nested [try]/[except] around [datetime.fromisoformat]: the string
    as it is, then with ["T00:00:00"] appended. *)
Definition parse_date (s : string) (detail : string) : response datetime :=
  match fromisoformat s with
  | Some dt => OK dt
  | None =>
      match fromisoformat (s ++ "T00:00:00") with
      | Some dt => OK dt
      | None => HTTPException 400 detail
      end
  end.

(** [start_date] is parsed only when it is truthy: [None] and the empty
    string both leave [start_dt] at [None]. *)
Definition create_announcement (message end_date : string) (start_date : option string)
    (teacher_username : string) (now : datetime) (db : database)
  : response View.t * database :=
  match find_teacher teacher_username db with
  | None => (HTTPException 401 "Invalid teacher credentials", db)
  | Some _ =>
      match
        (end_dt <- parse_date end_date "Invalid end_date format" ;;
         start_dt <- (match start_date with
                      | Some s =>
                          if truthy start_date
                          then (dt <- parse_date s "Invalid start_date format" ;; OK (Some dt))
                          else OK None
                      | None => OK None
                      end) ;;
         OK (end_dt, start_dt))%response
      with
      | HTTPException c d => (HTTPException c d, db)
      | OK (end_dt, start_dt) =>
          let doc :=
            mkDoc None (Some message) start_dt (Some end_dt)
                  (Some teacher_username) (Some now) in
          let (inserted_id, db') := insert_one doc db in
          let doc := set_id doc inserted_id in
          (OK (_serialize doc), db')
      end
  end.

(** The [update] dict built by [update_announcement]. *)
Definition build_update (message end_date start_date : option string)
  : response (list set_entry) :=
  (let update := [] in
   let update := match message with
                 | Some m => update ++ [set_message m]
                 | None => update
                 end in
   update <- (match end_date with
              | Some s => dt <- parse_date s "Invalid end_date format" ;;
                          OK (update ++ [set_end_date dt])
              | None => OK update
              end) ;;
   update <- (match start_date with
              | Some s =>
                  if s =? ""
                  then OK (update ++ [set_start_date None])
                  else dt <- parse_date s "Invalid start_date format" ;;
                       OK (update ++ [set_start_date (Some dt)])
              | None => OK update
              end) ;;
   OK update)%response.

(** After a match, [find_one] returns the updated document; were it to
    return [None], [_serialize] would raise, which the framework answers
    with status 500. *)
Definition update_announcement (announcement_id : string)
    (message end_date start_date : option string)
    (teacher_username : string) (db : database)
  : response View.t * database :=
  match find_teacher teacher_username db with
  | None => (HTTPException 401 "Invalid teacher credentials", db)
  | Some _ =>
      match ObjectId announcement_id with
      | None => (HTTPException 400 "Invalid announcement id", db)
      | Some oid =>
          match build_update message end_date start_date with
          | HTTPException c d => (HTTPException c d, db)
          | OK [] => (HTTPException 400 "No fields to update", db)
          | OK update =>
              let (matched_count, c) :=
                update_one oid update (announcements_collection db) in
              let db' := with_announcements db c in
              if Nat.eqb matched_count 0
              then (HTTPException 404 "Announcement not found", db')
              else
                match find_one oid (announcements_collection db') with
                | Some doc => (OK (_serialize doc), db')
                | None => (HTTPException 500 "Internal Server Error", db')
                end
          end
      end
  end.

Definition delete_announcement (announcement_id teacher_username : string)
    (db : database) : response string * database :=
  match find_teacher teacher_username db with
  | None => (HTTPException 401 "Invalid teacher credentials", db)
  | Some _ =>
      match ObjectId announcement_id with
      | None => (HTTPException 400 "Invalid announcement id", db)
      | Some oid =>
          let (deleted_count, c) := delete_one oid (announcements_collection db) in
          let db' := with_announcements db c in
          if Nat.eqb deleted_count 0
          then (HTTPException 404 "Announcement not found", db')
          else (OK "Announcement deleted", db')
      end
  end.

(** ** Properties of documents and databases used in the statements *)

Definition end_date_le (a b : document) : Prop := end_date_leb a b = true.

(** The rendered id of a stored document, as the views show it. *)
Definition view_id (d : document) : string := View.id (_serialize d).

(** A date string that one of the two parses of [parse_date] accepts. *)
Definition parses (s : string) : bool :=
  match fromisoformat s, fromisoformat (s ++ "T00:00:00") with
  | None, None => false
  | _, _ => true
  end.

(** The message of a document is a non-empty text. *)
Definition nonempty_message (d : document) : bool :=
  match message d with
  | Some m => negb (m =? "")
  | None => false
  end.

(** The outcome [r] of a create call on [db] is a success that appended one
    document, with [end_date] [dt]. *)
Definition stores_end_date (r : response View.t * database) (db : database)
    (dt : datetime) : Prop :=
  exists v doc,
    r = (OK v, mkDb (announcements_collection db ++ [doc]) (teachers_collection db)
                    (N.succ (next_oid db)))
    /\ end_date doc = Some dt.

Definition messages_nonempty (db : database) : Prop :=
  forallb nonempty_message (announcements_collection db) = true.

(** Every id handed out so far is below the generator's next id. *)
Definition issued (next : N) (d : document) : bool :=
  match _id d with
  | Some o => (o <? next)%N
  | None => true
  end.

Definition ids_issued (db : database) : Prop :=
  forallb (issued (next_oid db)) (announcements_collection db) = true.

(** No two stored documents share an [_id]. *)
Definition ids_unique (db : database) : Prop :=
  NoDup (map _id (announcements_collection db)).

(** Every stored document has an [end_date]. *)
Definition has_end_date (d : document) : bool := exists_ (end_date d).

Definition end_dates_present (db : database) : Prop :=
  forallb has_end_date (announcements_collection db) = true.

(** The view [v] with its message replaced by [m]. *)
Definition with_message (v : View.t) (m : string) : View.t :=
  View.mk (View.id v) (Some m) (View.start_date v) (View.end_date v)
          (View.created_by v) (View.created_at v).

End Router.

(** ** A store that encodes its dates

    The definitions above describe a store that keeps every date as it is
    given.  A document store keeps a date in a form of its own (for BSON:
    milliseconds, in UTC, read back without a time zone) and fails on a
    date it cannot encode.  [to_bson d] is that form: what the store
    returns for a date [d] written to it, or [None] when writing [d]
    raises.  The writing endpoints are given a second time over such a
    store; the listings and [delete_announcement] write no date and are
    as above. *)
Section EncodingStore.
Context {L : Library}.
Variable to_bson : datetime -> option datetime.

Definition encode_date (field : option datetime) : option (option datetime) :=
  match field with
  | Some d =>
      match to_bson d with
      | Some d' => Some (Some d')
      | None => None
      end
  | None => Some None
  end.

(** Modelled from the spec: the document as the store keeps it, its three
    dates encoded; [None] when one of them cannot be encoded. *)
Definition encode_document (d : document) : option document :=
  match encode_date (start_date d), encode_date (end_date d),
        encode_date (created_at d) with
  | Some s, Some e, Some c =>
      Some (mkDoc (_id d) (message d) s e (created_by d) c)
  | _, _, _ => None
  end.

(** Modelled from the spec: insert, [insert_one(doc)], on the encoding
    store.  The encoded document is stored; [None] when the store raises. *)
Definition insert_one_bson (d : document) (db : database) : option (N * database) :=
  match encode_document d with
  | Some d' => Some (insert_one d' db)
  | None => None
  end.

Definition encode_entry (e : set_entry) : option set_entry :=
  match e with
  | set_message m => Some (set_message m)
  | set_end_date d =>
      match to_bson d with
      | Some d' => Some (set_end_date d')
      | None => None
      end
  | set_start_date (Some d) =>
      match to_bson d with
      | Some d' => Some (set_start_date (Some d'))
      | None => None
      end
  | set_start_date None => Some (set_start_date None)
  end.

Fixpoint encode_update (update : list set_entry) : option (list set_entry) :=
  match update with
  | [] => Some []
  | e :: u =>
      match encode_entry e, encode_update u with
      | Some e', Some u' => Some (e' :: u')
      | _, _ => None
      end
  end.

(** Modelled from the spec: partial update by id on the encoding store.
    The [update] dict is encoded before any document is looked for;
    [None] when the store raises. *)
Definition update_one_bson (oid : N) (update : list set_entry) (c : list document)
  : option (nat * list document) :=
  match encode_update update with
  | Some update' => Some (update_one oid update' c)
  | None => None
  end.

(** [create_announcement] over the encoding store.  The answer is built
    from the local [doc], not from what the store kept; an exception of
    [insert_one] is not caught and is answered with status 500. *)
Definition create_announcement_bson (message end_date : string)
    (start_date : option string) (teacher_username : string) (now : datetime)
    (db : database) : response View.t * database :=
  match find_teacher teacher_username db with
  | None => (HTTPException 401 "Invalid teacher credentials", db)
  | Some _ =>
      match
        (end_dt <- parse_date end_date "Invalid end_date format" ;;
         start_dt <- (match start_date with
                      | Some s =>
                          if truthy start_date
                          then (dt <- parse_date s "Invalid start_date format" ;; OK (Some dt))
                          else OK None
                      | None => OK None
                      end) ;;
         OK (end_dt, start_dt))%response
      with
      | HTTPException c d => (HTTPException c d, db)
      | OK (end_dt, start_dt) =>
          let doc :=
            mkDoc None (Some message) start_dt (Some end_dt)
                  (Some teacher_username) (Some now) in
          match insert_one_bson doc db with
          | None => (HTTPException 500 "Internal Server Error", db)
          | Some (inserted_id, db') =>
              let doc := set_id doc inserted_id in
              (OK (_serialize doc), db')
          end
      end
  end.

(** [update_announcement] over the encoding store.  The answer is the view
    of the document read back from the store; an exception of
    [update_one] is not caught and is answered with status 500. *)
Definition update_announcement_bson (announcement_id : string)
    (message end_date start_date : option string)
    (teacher_username : string) (db : database)
  : response View.t * database :=
  match find_teacher teacher_username db with
  | None => (HTTPException 401 "Invalid teacher credentials", db)
  | Some _ =>
      match ObjectId announcement_id with
      | None => (HTTPException 400 "Invalid announcement id", db)
      | Some oid =>
          match build_update message end_date start_date with
          | HTTPException c d => (HTTPException c d, db)
          | OK [] => (HTTPException 400 "No fields to update", db)
          | OK update =>
              match update_one_bson oid update (announcements_collection db) with
              | None => (HTTPException 500 "Internal Server Error", db)
              | Some (matched_count, c) =>
                  let db' := with_announcements db c in
                  if Nat.eqb matched_count 0
                  then (HTTPException 404 "Announcement not found", db')
                  else
                    match find_one oid (announcements_collection db') with
                    | Some doc => (OK (_serialize doc), db')
                    | None => (HTTPException 500 "Internal Server Error", db')
                    end
              end
          end
      end
  end.

(** A date string that parses to a date the store can encode. *)
Definition storable (s : string) : bool :=
  match parse_date s "" with
  | OK dt => match to_bson dt with Some _ => true | None => false end
  | HTTPException _ _ => false
  end.

End EncodingStore.

(** ** An executable instance of the library

    Dates are the fields of a Python [datetime]; [fromisoformat] accepts the
    documented grammar
    [YYYY-MM-DD[*HH[:MM[:SS[.fff[fff]]]][+HH:MM[:SS[.ffffff]]]]] and
    rejects field values the [datetime] constructor rejects; the further
    forms Python 3.11 reads (no separators, a [Z] suffix) are not accepted.
    An object id is the number its 24 hexadecimal digits denote; a string
    with white space, which [bytes.fromhex] skips, is not accepted. *)
Module PyLibrary.

Record pydatetime : Type := mkDate {
  year : N; month : N; day : N;
  hour : N; minute : N; second : N; microsecond : N;
  (* utcoffset in microseconds; None for a naive datetime *)
  tzinfo : option Z
}.

Definition digit (c : ascii) : option N :=
  let n := N_of_ascii c in
  if ((48 <=? n) && (n <=? 57))%N then Some (n - 48)%N else None.

Fixpoint digits (l : list ascii) (acc : N) : option N :=
  match l with
  | [] => Some acc
  | c :: l' =>
      match digit c with
      | Some d => digits l' (10 * acc + d)%N
      | None => None
      end
  end.

Definition is_leap (y : N) : bool :=
  ((y mod 4 =? 0) && (negb (y mod 100 =? 0) || (y mod 400 =? 0)))%N.

Definition days_in_month (y m : N) : N :=
  match m with
  | 2%N => if is_leap y then 29%N else 28%N
  | 4%N | 6%N | 9%N | 11%N => 30%N
  | _ => 31%N
  end.

Definition days_before_year (y : N) : N :=
  let y' := (y - 1)%N in (y' * 365 + y' / 4 - y' / 100 + y' / 400)%N.

Fixpoint days_before_month (y : N) (m : nat) : N :=
  match m with
  | O => 0%N
  | S m' => (days_before_month y m' + days_in_month y (N.of_nat m))%N
  end.

(** Proleptic Gregorian ordinal; 1 is 0001-01-01. *)
Definition toordinal (d : pydatetime) : N :=
  (days_before_year (year d)
   + days_before_month (year d) (N.to_nat (month d) - 1)
   + day d)%N.

(** The [YYYY-MM-DD] part: year, month and day. *)
Definition parse_isoformat_date (l : list ascii) : option (N * N * N) :=
  match l with
  | [y1; y2; y3; y4; s1; m1; m2; s2; d1; d2] =>
      if (Ascii.eqb s1 "-" && Ascii.eqb s2 "-")%bool
      then match digits [y1; y2; y3; y4] 0, digits [m1; m2] 0, digits [d1; d2] 0 with
           | Some y, Some m, Some d => Some (y, m, d)
           | _, _, _ => None
           end
      else None
  | _ => None
  end.

(** [HH[:MM[:SS[.fff[fff]]]]]: hour, minute, second and microsecond. *)
Definition parse_hh_mm_ss_ff (l : list ascii) : option (N * N * N * N) :=
  let colon c := Ascii.eqb c ":" in
  let point c := Ascii.eqb c "." in
  let field a b := digits [a; b] 0 in
  let make h m s f :=
    match h, m, s, f with
    | Some h, Some m, Some s, Some f => Some (h, m, s, f)
    | _, _, _, _ => None
    end in
  match l with
  | [h1; h2] => make (field h1 h2) (Some 0%N) (Some 0%N) (Some 0%N)
  | [h1; h2; c1; m1; m2] =>
      if colon c1
      then make (field h1 h2) (field m1 m2) (Some 0%N) (Some 0%N) else None
  | [h1; h2; c1; m1; m2; c2; s1; s2] =>
      if (colon c1 && colon c2)%bool
      then make (field h1 h2) (field m1 m2) (field s1 s2) (Some 0%N) else None
  | [h1; h2; c1; m1; m2; c2; s1; s2; p; f1; f2; f3] =>
      if (colon c1 && colon c2 && point p)%bool
      then make (field h1 h2) (field m1 m2) (field s1 s2)
                (option_map (N.mul 1000) (digits [f1; f2; f3] 0))
      else None
  | [h1; h2; c1; m1; m2; c2; s1; s2; p; f1; f2; f3; f4; f5; f6] =>
      if (colon c1 && colon c2 && point p)%bool
      then make (field h1 h2) (field m1 m2) (field s1 s2)
                (digits [f1; f2; f3; f4; f5; f6] 0)
      else None
  | _ => None
  end.

(** Splits a time string at the first sign: the time, and the sign and
    offset string when there is one. *)
Fixpoint split_tz (l : list ascii) : list ascii * option (bool * list ascii) :=
  match l with
  | [] => ([], None)
  | c :: l' =>
      if Ascii.eqb c "+" then ([], Some (false, l'))
      else if Ascii.eqb c "-" then ([], Some (true, l'))
      else let (t, z) := split_tz l' in (c :: t, z)
  end.

Definition microseconds (h m s f : N) : Z :=
  Z.of_N (((h * 60 + m) * 60 + s) * 1000000 + f).

Definition day_us : Z := 86400000000.

(** [+HH:MM[:SS[.ffffff]]]: the offset, strictly within a day. *)
Definition parse_tz (negative : bool) (l : list ascii) : option Z :=
  match length l with
  | 5 | 8 | 15 =>
      match parse_hh_mm_ss_ff l with
      | Some (h, m, s, f) =>
          let off := microseconds h m s f in
          if (off <? day_us)%Z
          then Some (if negative then (- off)%Z else off)
          else None
      | None => None
      end
  | _ => None
  end.

(** The range checks of the [datetime] constructor. *)
Definition check_fields (y m d hh mm ss ff : N) : bool :=
  ((1 <=? y) && (y <=? 9999) && (1 <=? m) && (m <=? 12)
   && (1 <=? d) && (d <=? days_in_month y m)
   && (hh <=? 23) && (mm <=? 59) && (ss <=? 59) && (ff <=? 999999))%N.

Definition new_datetime (y m d hh mm ss ff : N) (tz : option Z) : option pydatetime :=
  if check_fields y m d hh mm ss ff
  then Some (mkDate y m d hh mm ss ff tz) else None.

Definition py_fromisoformat (date_string : string) : option pydatetime :=
  let l := list_ascii_of_string date_string in
  match parse_isoformat_date (firstn 10 l) with
  | None => None
  | Some (y, m, d) =>
      match skipn 10 l with
      | [] => new_datetime y m d 0 0 0 0 None
      | _ :: tstr =>
          let (timestr, tz) := split_tz tstr in
          match parse_hh_mm_ss_ff timestr with
          | None => None
          | Some (hh, mm, ss, ff) =>
              match tz with
              | None => new_datetime y m d hh mm ss ff None
              | Some (negative, tzstr) =>
                  match parse_tz negative tzstr with
                  | Some off => new_datetime y m d hh mm ss ff (Some off)
                  | None => None
                  end
              end
          end
      end
  end.

Definition digit_char (n : N) : ascii := ascii_of_N (48 + n mod 10).

(** [n] in decimal, zero-padded to [width] digits (its low digits). *)
Fixpoint zfill (width : nat) (n : N) (acc : string) : string :=
  match width with
  | O => acc
  | S w => zfill w (n / 10) (String (digit_char n) acc)
  end.

Definition hh_mm_ss (h m s : N) : string :=
  zfill 2 h "" ++ ":" ++ zfill 2 m "" ++ ":" ++ zfill 2 s "".

Definition format_offset (off : Z) : string :=
  let a := Z.to_N (Z.abs off) in
  let f := (a mod 1000000)%N in
  let t := (a / 1000000)%N in
  (if (off <? 0)%Z then "-" else "+")
  ++ zfill 2 (t / 3600) "" ++ ":" ++ zfill 2 (t / 60 mod 60) ""
  ++ (if ((t mod 60 =? 0) && (f =? 0))%N then ""
      else ":" ++ zfill 2 (t mod 60) ""
           ++ (if (f =? 0)%N then "" else "." ++ zfill 6 f "")).

(** [date.isoformat()]: the bare calendar date [YYYY-MM-DD]. *)
Definition isoformat_date (y m d : N) : string :=
  zfill 4 y "" ++ "-" ++ zfill 2 m "" ++ "-" ++ zfill 2 d "".

Definition py_isoformat (d : pydatetime) : string :=
  zfill 4 (year d) "" ++ "-" ++ zfill 2 (month d) "" ++ "-" ++ zfill 2 (day d) ""
  ++ "T" ++ hh_mm_ss (hour d) (minute d) (second d)
  ++ (if (microsecond d =? 0)%N then "" else "." ++ zfill 6 (microsecond d) "")
  ++ match tzinfo d with
     | Some off => format_offset off
     | None => ""
     end.

(** Milliseconds since 1970-01-01T00:00:00 UTC, a naive datetime being
    taken as UTC: the value of a BSON date. *)
Definition py_timestamp (d : pydatetime) : Z :=
  let days := (Z.of_N (toordinal d) - 719163)%Z in
  let us := (days * day_us
             + microseconds (hour d) (minute d) (second d) (microsecond d)
             - match tzinfo d with Some off => off | None => 0 end)%Z in
  (us / 1000)%Z.

Definition hex_digit (c : ascii) : option N :=
  let n := N_of_ascii c in
  if ((48 <=? n) && (n <=? 57))%N then Some (n - 48)%N
  else if ((97 <=? n) && (n <=? 102))%N then Some (n - 87)%N
  else if ((65 <=? n) && (n <=? 70))%N then Some (n - 55)%N
  else None.

Fixpoint hex_digits (l : list ascii) (acc : N) : option N :=
  match l with
  | [] => Some acc
  | c :: l' =>
      match hex_digit c with
      | Some d => hex_digits l' (16 * acc + d)%N
      | None => None
      end
  end.

(** A string of 24 hexadecimal digits. *)
Definition py_ObjectId (oid : string) : option N :=
  if Nat.eqb (String.length oid) 24
  then hex_digits (list_ascii_of_string oid) 0
  else None.

Definition hex_char (n : N) : ascii :=
  let d := (n mod 16)%N in
  if (d <? 10)%N then ascii_of_N (48 + d) else ascii_of_N (87 + d).

Fixpoint hexfill (width : nat) (n : N) (acc : string) : string :=
  match width with
  | O => acc
  | S w => hexfill w (n / 16) (String (hex_char n) acc)
  end.

Definition py_str_of_oid (oid : N) : string := hexfill 24 oid "".

(** Microseconds since 0001-01-01T00:00:00, the offset of an aware
    datetime subtracted. *)
Definition utc_microseconds (d : pydatetime) : Z :=
  ((Z.of_N (toordinal d) - 1) * day_us
   + microseconds (hour d) (minute d) (second d) (microsecond d)
   - match tzinfo d with Some off => off | None => 0 end)%Z.

(** The year, and the day within it counted from 0, of the day [n] days
    after 0001-01-01. *)
Definition year_and_day (n : Z) : Z * Z :=
  let n400 := (n / 146097)%Z in
  let n := (n mod 146097)%Z in
  let n100 := (n / 36524)%Z in
  let n := (n mod 36524)%Z in
  let n4 := (n / 1461)%Z in
  let n := (n mod 1461)%Z in
  let n1 := (n / 365)%Z in
  let n := (n mod 365)%Z in
  let y := (n400 * 400 + n100 * 100 + n4 * 4 + n1 + 1)%Z in
  if ((n1 =? 4) || (n100 =? 4))%Z then ((y - 1)%Z, 365%Z) else (y, n).

(** The month, and the day within it counted from 1, of day [n] of year
    [y], searching from month [m]. *)
Fixpoint month_and_day (fuel : nat) (y m : N) (n : N) : N * N :=
  match fuel with
  | O => (m, n + 1)%N
  | S fuel' =>
      if (n <? days_in_month y m)%N then (m, n + 1)%N
      else month_and_day fuel' y (m + 1)%N (n - days_in_month y m)%N
  end.

(** The naive datetime [t] microseconds after 0001-01-01T00:00:00. *)
Definition of_microseconds (t : Z) : pydatetime :=
  let (y, n) := year_and_day (t / day_us) in
  let (m, d) := month_and_day 11 (Z.to_N y) 1 (Z.to_N n) in
  let r := Z.to_N (t mod day_us) in
  mkDate (Z.to_N y) m d
         (r / 3600000000) (r / 60000000 mod 60) (r / 1000000 mod 60)
         (r mod 1000000) None.

(** The last microsecond a datetime can hold is the one before
    10000-01-01T00:00:00. *)
Definition end_of_time : Z := 3652059 * day_us.

(** A date as a BSON store keeps it.  The offset of an aware datetime is
    subtracted, which raises when the result leaves the years 1 to 9999;
    the milliseconds are kept and read back as a naive datetime. *)
Definition py_to_bson (d : pydatetime) : option pydatetime :=
  let t := utc_microseconds d in
  if ((0 <=? t) && (t <? end_of_time))%Z
  then Some (of_microseconds (t / 1000 * 1000))
  else None.

#[export] Instance py : Library := {
  datetime := pydatetime;
  fromisoformat := py_fromisoformat;
  isoformat := py_isoformat;
  timestamp := py_timestamp;
  ObjectId := py_ObjectId;
  str_of_oid := py_str_of_oid
}.

End PyLibrary.

(** ** A sample database

    Two teachers and three announcements: one without a start date, one
    whose window is over at [now], one whose window has not begun. *)
Module Sample.
Import PyLibrary.

Definition date (y m d hh mm ss : N) : pydatetime := mkDate y m d hh mm ss 0 None.

Definition now : pydatetime := date 2026 1 10 8 30 0.

Definition science_fair : @document py :=
  mkDoc (Some 1%N) (Some "Science fair on Friday") None
        (Some (date 2030 6 30 0 0 0)) (Some "mrodriguez")
        (Some (date 2025 12 1 9 0 0)).

Definition autumn_term : @document py :=
  mkDoc (Some 2%N) (Some "Autumn term clubs are open")
        (Some (date 2025 9 1 0 0 0)) (Some (date 2025 12 20 23 59 59))
        (Some "mchen") (Some (date 2025 8 25 14 0 0)).

Definition exam_week : @document py :=
  mkDoc (Some 3%N) (Some "Exam week") (Some (date 2027 1 1 0 0 0))
        (Some (date 2027 1 15 0 0 0)) (Some "mrodriguez")
        (Some (date 2026 1 5 10 0 0)).

Definition db : @database py :=
  mkDb [science_fair; autumn_term; exam_week] ["mrodriguez"; "mchen"] 4.


End Sample.

(** ** Facts about the collection operations *)

Section CollectionFacts.
Context {L : Library}.

Lemma end_date_leb_total (a b : document) :
  end_date_leb a b = false -> end_date_leb b a = true.
Proof.
  unfold end_date_leb.
  destruct (end_date a), (end_date b); intros H; try reflexivity; try discriminate.
  apply Z.leb_le. apply Z.leb_gt in H. lia.
Qed.

Lemma end_date_le_trans (a b c : document) :
  end_date_le a b -> end_date_le b c -> end_date_le a c.
Proof.
  unfold end_date_le, end_date_leb.
  destruct (end_date a), (end_date b), (end_date c); intros H1 H2;
    try reflexivity; try discriminate.
  apply Z.leb_le in H1, H2. apply Z.leb_le. lia.
Qed.

Lemma insert_sorted_perm (d : document) (l : list document) :
  Permutation (insert_sorted d l) (d :: l).
Proof.
  induction l as [|x l IH]; simpl.
  - apply Permutation_refl.
  - destruct (end_date_leb d x).
    + apply Permutation_refl.
    + eapply perm_trans; [apply perm_skip, IH | apply perm_swap].
Qed.

Lemma sort_end_date_perm (l : list document) : Permutation (sort_end_date l) l.
Proof.
  induction l as [|x l IH]; simpl.
  - constructor.
  - eapply perm_trans; [apply insert_sorted_perm | apply perm_skip, IH].
Qed.

Lemma sort_end_date_In (d : document) (l : list document) :
  In d (sort_end_date l) <-> In d l.
Proof.
  split; apply Permutation_in;
    [apply sort_end_date_perm | apply Permutation_sym, sort_end_date_perm].
Qed.

Lemma insert_sorted_sorted (d : document) (l : list document) :
  StronglySorted end_date_le l -> StronglySorted end_date_le (insert_sorted d l).
Proof.
  induction 1 as [|x l Hs IH Hx]; simpl.
  - repeat constructor.
  - destruct (end_date_leb d x) eqn:E.
    + constructor; [constructor; assumption|].
      constructor; [exact E|].
      eapply Forall_impl; [|exact Hx].
      intros y Hy. eapply end_date_le_trans; [exact E | exact Hy].
    + constructor; [exact IH|].
      eapply Permutation_Forall; [apply Permutation_sym, insert_sorted_perm|].
      constructor; [apply end_date_leb_total, E | exact Hx].
Qed.

Lemma sort_end_date_sorted (l : list document) :
  StronglySorted end_date_le (sort_end_date l).
Proof.
  induction l as [|x l IH]; simpl.
  - constructor.
  - apply insert_sorted_sorted, IH.
Qed.

(** Teachers. *)

Lemma find_teacher_known (u : string) (db : database) :
  In u (teachers_collection db) -> find_teacher u db = Some u.
Proof.
  unfold find_teacher. induction (teachers_collection db) as [|t ts IH]; simpl.
  - intros [].
  - destruct (String.eqb_spec u t) as [->|Hne]; [reflexivity|].
    intros [Heq|Hin]; [congruence | exact (IH Hin)].
Qed.

Lemma find_teacher_unknown (u : string) (db : database) :
  ~ In u (teachers_collection db) -> find_teacher u db = None.
Proof.
  unfold find_teacher. intros Hn.
  destruct (find (String.eqb u) (teachers_collection db)) as [t|] eqn:E; [|reflexivity].
  apply find_some in E. destruct E as [Hin Heq].
  apply String.eqb_eq in Heq. subst t. contradiction.
Qed.

(** [update_one] and [delete_one] against [find_one]. *)

Lemma has_id_apply_set (oid : N) (update : list set_entry) (d : document) :
  has_id oid (apply_set update d) = has_id oid d.
Proof.
  unfold apply_set. revert d.
  induction update as [|e u IH]; intros d; simpl; [reflexivity|].
  rewrite IH. destruct e; reflexivity.
Qed.

Lemma update_one_missing (oid : N) (update : list set_entry) (c : list document) :
  find_one oid c = None -> update_one oid update c = (0, c).
Proof.
  unfold find_one. induction c as [|d c IH]; simpl; [reflexivity|].
  destruct (has_id oid d); [discriminate|].
  intros H. rewrite (IH H). reflexivity.
Qed.

Lemma update_one_found (oid : N) (update : list set_entry) (c : list document)
      (d : document) :
  find_one oid c = Some d ->
  fst (update_one oid update c) = 1
  /\ find_one oid (snd (update_one oid update c)) = Some (apply_set update d)
  /\ length (snd (update_one oid update c)) = length c
  /\ (forall o, o <> oid ->
        find_one o (snd (update_one oid update c)) = find_one o c).
Proof.
  unfold find_one. induction c as [|x c IH]; simpl; [discriminate|].
  destruct (has_id oid x) eqn:E.
  - intros H. injection H as ->. simpl.
    rewrite has_id_apply_set, E. repeat split; try reflexivity.
    intros o Ho. rewrite has_id_apply_set.
    replace (has_id o d) with false; [reflexivity|].
    unfold has_id in *. destruct (_id d) as [i|]; [|reflexivity].
    apply N.eqb_eq in E. subst i. symmetry. apply N.eqb_neq. congruence.
  - intros H. specialize (IH H).
    destruct (update_one oid update c) as [n c'']. simpl in *.
    rewrite E. destruct IH as (H1 & H2 & H3 & H4).
    repeat split; try assumption.
    + rewrite H3. reflexivity.
    + intros o Ho. rewrite (H4 o Ho). reflexivity.
Qed.

Lemma delete_one_missing (oid : N) (c : list document) :
  find_one oid c = None -> delete_one oid c = (0, c).
Proof.
  unfold find_one. induction c as [|d c IH]; simpl; [reflexivity|].
  destruct (has_id oid d); [discriminate|].
  intros H. rewrite (IH H). reflexivity.
Qed.

Lemma delete_one_found (oid : N) (c : list document) (d : document) :
  find_one oid c = Some d ->
  fst (delete_one oid c) = 1 /\ S (length (snd (delete_one oid c))) = length c.
Proof.
  unfold find_one. induction c as [|x c IH]; simpl; [discriminate|].
  destruct (has_id oid x) eqn:E.
  - intros _. split; reflexivity.
  - intros H. specialize (IH H).
    destruct (delete_one oid c) as [n c'']. simpl in *.
    destruct IH as [H1 H2]. split; [assumption|]. rewrite H2. reflexivity.
Qed.

Lemma delete_one_incl (oid : N) (c : list document) :
  incl (snd (delete_one oid c)) c.
Proof.
  induction c as [|x c IH]; simpl; [apply incl_refl|].
  destruct (has_id oid x).
  - apply incl_tl, incl_refl.
  - destruct (delete_one oid c) as [n c'']. simpl in *.
    intros y [->|Hy]; [left; reflexivity | right; apply IH, Hy].
Qed.

End CollectionFacts.


(** ** The listings *)

Section Listings.
Context {L : Library}.

Lemma NoDup_map_In_eq {A B : Type} (f : A -> B) (l : list A) (a b : A) :
  NoDup (map f l) -> In a l -> In b l -> f a = f b -> a = b.
Proof.
  induction l as [|x l IH]; simpl; [intros _ []|].
  intros Hnd Ha Hb Hf. inversion Hnd as [|y ys Hx Hl]; subst.
  destruct Ha as [->|Ha], Hb as [->|Hb].
  - reflexivity.
  - exfalso. apply Hx. rewrite Hf. apply in_map, Hb.
  - exfalso. apply Hx. rewrite <- Hf. apply in_map, Ha.
  - apply IH; assumption.
Qed.

Lemma query_spec (now : datetime) (A : document) :
  query now A = true <->
  (exists e, end_date A = Some e /\ (timestamp now <= timestamp e)%Z)
  /\ (start_date A = None
      \/ exists s, start_date A = Some s /\ (timestamp s <= timestamp now)%Z).
Proof.
  unfold query, gte, lte, is_null, exists_. split.
  - intros H. apply andb_true_iff in H. destruct H as [He Hs]. split.
    + destruct (end_date A) as [e|]; [|discriminate].
      exists e. split; [reflexivity | apply Z.leb_le, He].
    + destruct (start_date A) as [s|]; [|left; reflexivity].
      right. exists s. split; [reflexivity|].
      simpl in Hs. rewrite orb_false_r in Hs. apply Z.leb_le, Hs.
  - intros [(e & He & Hle) Hs]. rewrite He. apply andb_true_iff. split.
    + apply Z.leb_le, Hle.
    + destruct Hs as [Hs | (s & Hs & Hle')]; rewrite Hs; [reflexivity|].
      simpl. rewrite orb_false_r. apply Z.leb_le, Hle'.
Qed.

(** C1. With the stored announcements rendered under pairwise distinct ids,
    a stored announcement [A] appears in the output of
    [get_active_announcements] exactly when its [end_date] is present and
    not before [now], and its [start_date] is null or absent, or not
    after [now]. *)
Theorem list_active_iff (now : datetime) (db : database) (A : document) :
  NoDup (map view_id (announcements_collection db)) ->
  In A (announcements_collection db) ->
  (In (_serialize A) (get_active_announcements now db) <->
   (exists e, end_date A = Some e /\ (timestamp now <= timestamp e)%Z)
   /\ (start_date A = None
       \/ exists s, start_date A = Some s /\ (timestamp s <= timestamp now)%Z)).
Proof.
  intros Hnd HA. rewrite <- query_spec. unfold get_active_announcements.
  rewrite in_map_iff. split.
  - intros (B & HB & Hin). apply sort_end_date_In, filter_In in Hin.
    destruct Hin as [HinB Hq].
    assert (B = A) as <-; [|exact Hq].
    apply (NoDup_map_In_eq view_id (announcements_collection db)); try assumption.
    unfold view_id. rewrite HB. reflexivity.
  - intros Hq. exists A. split; [reflexivity|].
    apply sort_end_date_In, filter_In. split; assumption.
Qed.

(** C8. Both listings are the serialisations, in order, of stored documents
    listed in ascending order of [end_date]: [get_active_announcements] of
    the documents the query selects, [get_all_announcements] of all of
    them. *)
Theorem listings_sorted (now : datetime) (teacher_username : string) (db : database) :
  (exists docs,
      get_active_announcements now db = map _serialize docs
      /\ StronglySorted end_date_le docs
      /\ Permutation docs (filter (query now) (announcements_collection db)))
  /\ (forall views,
         get_all_announcements teacher_username db = OK views ->
         exists docs,
           views = map _serialize docs
           /\ StronglySorted end_date_le docs
           /\ Permutation docs (announcements_collection db)).
Proof.
  split.
  - exists (sort_end_date (filter (query now) (announcements_collection db))).
    split; [reflexivity|]. split; [apply sort_end_date_sorted | apply sort_end_date_perm].
  - intros views H. unfold get_all_announcements in H.
    destruct (find_teacher teacher_username db); [|discriminate].
    injection H as <-.
    exists (sort_end_date (announcements_collection db)).
    split; [reflexivity|]. split; [apply sort_end_date_sorted | apply sort_end_date_perm].
Qed.

End Listings.


(** ** Creating announcements *)

Section Create.
Context {L : Library}.

Lemma find_teacher_Some (u t : string) (db : database) :
  find_teacher u db = Some t -> In u (teachers_collection db).
Proof.
  unfold find_teacher. intros H. apply find_some in H.
  destruct H as [Hin Heq]. apply String.eqb_eq in Heq. subst t. exact Hin.
Qed.

Lemma parse_date_OK (s detail : string) (dt : datetime) :
  parse_date s detail = OK dt <->
  fromisoformat s = Some dt
  \/ (fromisoformat s = None /\ fromisoformat (s ++ "T00:00:00") = Some dt).
Proof.
  unfold parse_date.
  destruct (fromisoformat s) as [a|]; [|destruct (fromisoformat (s ++ "T00:00:00")) as [b|]].
  - split; [intros H; left; congruence | intros [H|[H _]]; congruence].
  - split; [intros H; right; split; congruence | intros [H|[_ H]]; congruence].
  - split; [discriminate | intros [H|[_ H]]; discriminate].
Qed.

Lemma parse_date_error (s detail : string) (c : nat) (d : string) :
  parse_date s detail = HTTPException c d <->
  fromisoformat s = None /\ fromisoformat (s ++ "T00:00:00") = None
  /\ c = 400 /\ d = detail.
Proof.
  unfold parse_date.
  destruct (fromisoformat s) as [a|]; [|destruct (fromisoformat (s ++ "T00:00:00")) as [b|]].
  - split; [discriminate | intros (H & _); discriminate].
  - split; [discriminate | intros (_ & H & _); discriminate].
  - split.
    + intros H. injection H as <- <-. repeat split.
    + intros (_ & _ & -> & ->). reflexivity.
Qed.

Lemma parse_date_detail (s detail detail' : string) (dt : datetime) :
  parse_date s detail = OK dt -> parse_date s detail' = OK dt.
Proof. intros H. apply parse_date_OK. apply parse_date_OK in H. exact H. Qed.

(** [create_announcement] for a known teacher, by the outcome of the two
    date parses. *)
Lemma create_end_date_error (message end_date : string) (start_date : option string)
      (teacher_username : string) (now : datetime) (db : database) (c : nat) (d : string) :
  In teacher_username (teachers_collection db) ->
  parse_date end_date "Invalid end_date format" = HTTPException c d ->
  create_announcement message end_date start_date teacher_username now db
  = (HTTPException c d, db).
Proof.
  intros Ht He. unfold create_announcement.
  rewrite (find_teacher_known _ _ Ht), He. reflexivity.
Qed.

Lemma create_without_start (message end_date : string) (start_date : option string)
      (teacher_username : string) (now : datetime) (db : database) (e : datetime) :
  In teacher_username (teachers_collection db) ->
  parse_date end_date "Invalid end_date format" = OK e ->
  truthy start_date = false ->
  let doc := mkDoc (Some (next_oid db)) (Some message) None (Some e)
                   (Some teacher_username) (Some now) in
  create_announcement message end_date start_date teacher_username now db
  = (OK (_serialize doc),
     mkDb (announcements_collection db ++ [doc]) (teachers_collection db)
          (N.succ (next_oid db))).
Proof.
  intros Ht He Hs. unfold create_announcement.
  rewrite (find_teacher_known _ _ Ht), He. simpl.
  destruct start_date as [s|]; [rewrite Hs|]; reflexivity.
Qed.

Lemma create_with_start (message end_date s : string)
      (teacher_username : string) (now : datetime) (db : database) (e : datetime) :
  In teacher_username (teachers_collection db) ->
  parse_date end_date "Invalid end_date format" = OK e ->
  s <> "" ->
  create_announcement message end_date (Some s) teacher_username now db
  = match parse_date s "Invalid start_date format" with
    | OK dt =>
        let doc := mkDoc (Some (next_oid db)) (Some message) (Some dt) (Some e)
                         (Some teacher_username) (Some now) in
        (OK (_serialize doc),
         mkDb (announcements_collection db ++ [doc]) (teachers_collection db)
              (N.succ (next_oid db)))
    | HTTPException c d => (HTTPException c d, db)
    end.
Proof.
  intros Ht He Hs. unfold create_announcement.
  rewrite (find_teacher_known _ _ Ht), He. simpl.
  apply String.eqb_neq in Hs. rewrite Hs. simpl.
  destruct (parse_date s "Invalid start_date format"); reflexivity.
Qed.

(** What a successful [create_announcement] did. *)
Lemma create_inv (message end_date : string) (start_date : option string)
      (teacher_username : string) (now : datetime) (db db' : database) (v : View.t) :
  create_announcement message end_date start_date teacher_username now db = (OK v, db') ->
  exists (e : datetime) (s : option datetime),
    In teacher_username (teachers_collection db)
    /\ parse_date end_date "Invalid end_date format" = OK e
    /\ ((truthy start_date = false /\ s = None)
        \/ exists str dt, start_date = Some str /\ str <> ""
                          /\ parse_date str "Invalid start_date format" = OK dt
                          /\ s = Some dt)
    /\ v = _serialize (mkDoc (Some (next_oid db)) (Some message) s (Some e)
                             (Some teacher_username) (Some now))
    /\ db' = mkDb (announcements_collection db
                   ++ [mkDoc (Some (next_oid db)) (Some message) s (Some e)
                             (Some teacher_username) (Some now)])
                  (teachers_collection db) (N.succ (next_oid db)).
Proof.
  intros H.
  destruct (find_teacher teacher_username db) as [t|] eqn:Et.
  2:{ unfold create_announcement in H. rewrite Et in H. discriminate. }
  pose proof (find_teacher_Some _ _ _ Et) as Ht.
  destruct (parse_date end_date "Invalid end_date format") as [e|c d] eqn:Ee.
  2:{ rewrite (create_end_date_error _ _ _ _ _ _ _ _ Ht Ee) in H. discriminate. }
  destruct (truthy start_date) eqn:Es.
  - destruct start_date as [str|]; [|discriminate].
    assert (str <> "") as Hne.
    { simpl in Es. intros ->. discriminate. }
    rewrite (create_with_start _ _ _ _ _ _ _ Ht Ee Hne) in H.
    destruct (parse_date str "Invalid start_date format") as [dt|c d] eqn:Ep;
      [|discriminate].
    simpl in H. injection H as <- <-.
    exists e, (Some dt). repeat split; try assumption.
    right. exists str, dt. repeat split; assumption.
  - rewrite (create_without_start _ _ _ _ now _ _ Ht Ee Es) in H.
    simpl in H. injection H as <- <-.
    exists e, None. repeat split; try assumption.
    left. split; reflexivity.
Qed.

(** C3. A create call whose [teacher_username] matches no teacher record
    fails with Unauthorized (401) and leaves the database as it was: no
    document is inserted. *)
Theorem create_unknown_teacher (message end_date : string) (start_date : option string)
      (teacher_username : string) (now : datetime) (db : database) :
  ~ In teacher_username (teachers_collection db) ->
  Unauthorized (fst (create_announcement message end_date start_date
                                         teacher_username now db))
  /\ snd (create_announcement message end_date start_date teacher_username now db) = db.
Proof.
  intros Hn. unfold create_announcement.
  rewrite (find_teacher_unknown _ _ Hn). simpl. split; [|reflexivity].
  eexists. reflexivity.
Qed.

(** C10. For a known teacher, a create call with [start_date] the empty
    string behaves exactly as the call with [start_date] absent; it never
    fails on the start date, and when the end date parses it succeeds and
    stores a null [start_date]. *)
Theorem create_empty_start_date (message end_date teacher_username : string)
      (now : datetime) (db : database) :
  In teacher_username (teachers_collection db) ->
  create_announcement message end_date (Some "") teacher_username now db
  = create_announcement message end_date None teacher_username now db
  /\ fst (create_announcement message end_date (Some "") teacher_username now db)
     <> HTTPException 400 "Invalid start_date format"
  /\ (forall e, parse_date end_date "Invalid end_date format" = OK e ->
      exists v doc,
        create_announcement message end_date (Some "") teacher_username now db
        = (OK v, mkDb (announcements_collection db ++ [doc])
                      (teachers_collection db) (N.succ (next_oid db)))
        /\ v = _serialize doc
        /\ start_date doc = None
        /\ View.start_date v = None).
Proof.
  intros Ht. split; [reflexivity|]. split.
  - destruct (parse_date end_date "Invalid end_date format") as [e|c d] eqn:Ee.
    + rewrite (create_without_start _ _ (Some "") _ now _ _ Ht Ee eq_refl).
      simpl. discriminate.
    + rewrite (create_end_date_error _ _ _ _ _ _ _ _ Ht Ee). simpl.
      apply parse_date_error in Ee. destruct Ee as (_ & _ & -> & ->).
      intros H. discriminate H.
  - intros e Ee.
    rewrite (create_without_start _ _ (Some "") _ now _ _ Ht Ee eq_refl).
    eexists. eexists. split; [reflexivity|]. repeat split.
Qed.

Lemma issued_filter_has_id (db : database) :
  ids_issued db ->
  filter (has_id (next_oid db)) (announcements_collection db) = [].
Proof.
  unfold ids_issued. induction (announcements_collection db) as [|d c IH]; simpl;
    [reflexivity|].
  intros H. apply andb_true_iff in H. destruct H as [Hd Hc].
  rewrite (IH Hc). unfold has_id, issued in *.
  destruct (_id d) as [o|]; [|reflexivity].
  apply N.ltb_lt in Hd. destruct (N.eqb_spec o (next_oid db)); [lia | reflexivity].
Qed.

(** The outcome of [create_announcement] for a known teacher as far as
    [end_date] decides it. *)
Lemma create_end_date_decides (msg end_s : string) (start_s : option string)
      (teacher_username : string) (now : datetime) (db : database) :
  In teacher_username (teachers_collection db) ->
  (fst (create_announcement msg end_s start_s teacher_username now db)
   = HTTPException 400 "Invalid end_date format"
   <-> fromisoformat end_s = None /\ fromisoformat (end_s ++ "T00:00:00") = None)
  /\ (fromisoformat end_s = None -> fromisoformat (end_s ++ "T00:00:00") = None ->
      InvalidArgument (fst (create_announcement msg end_s start_s teacher_username now db))
      /\ snd (create_announcement msg end_s start_s teacher_username now db) = db)
  /\ (forall v db',
        create_announcement msg end_s start_s teacher_username now db = (OK v, db') ->
        exists doc dt,
          announcements_collection db' = announcements_collection db ++ [doc]
          /\ end_date doc = Some dt
          /\ (fromisoformat end_s = Some dt
              \/ (fromisoformat end_s = None
                  /\ fromisoformat (end_s ++ "T00:00:00") = Some dt)))
  /\ (truthy start_s = false ->
      ((exists v db',
           create_announcement msg end_s start_s teacher_username now db = (OK v, db'))
       <-> (fromisoformat end_s <> None
            \/ fromisoformat (end_s ++ "T00:00:00") <> None))).
Proof.
  intros Ht.
  assert (forall c d, parse_date end_s "Invalid end_date format" = HTTPException c d ->
                      create_announcement msg end_s start_s teacher_username now db
                      = (HTTPException 400 "Invalid end_date format", db)) as Herr.
  { intros c d H. rewrite (create_end_date_error _ _ _ _ _ _ _ _ Ht H).
    apply parse_date_error in H. destruct H as (_ & _ & -> & ->). reflexivity. }
  split; [|split; [|split]].
  - split.
    + intros H.
      destruct (parse_date end_s "Invalid end_date format") as [e|c d] eqn:Ee.
      * exfalso. destruct (truthy start_s) eqn:Es.
        -- destruct start_s as [str|]; [|discriminate].
           assert (str <> "") as Hne by (simpl in Es; intros ->; discriminate).
           rewrite (create_with_start _ _ _ _ _ _ _ Ht Ee Hne) in H.
           destruct (parse_date str "Invalid start_date format") as [dt|c d] eqn:Ep.
           ++ discriminate.
           ++ apply parse_date_error in Ep. destruct Ep as (_ & _ & -> & ->).
              simpl in H. discriminate.
        -- rewrite (create_without_start _ _ _ _ now _ _ Ht Ee Es) in H. discriminate.
      * apply parse_date_error in Ee. destruct Ee as (H1 & H2 & _). split; assumption.
    + intros [H1 H2].
      rewrite (Herr 400 "Invalid end_date format"); [reflexivity|].
      apply parse_date_error. repeat split; assumption.
  - intros H1 H2.
    rewrite (Herr 400 "Invalid end_date format").
    + split; [eexists; reflexivity | reflexivity].
    + apply parse_date_error. repeat split; assumption.
  - intros v db' H.
    destruct (create_inv _ _ _ _ _ _ _ _ H) as (e & s & _ & He & _ & _ & Hdb).
    eexists. exists e. rewrite Hdb. simpl. split; [reflexivity|].
    split; [reflexivity|]. apply parse_date_OK in He. exact He.
  - intros Es. split.
    + intros (v & db' & H).
      destruct (create_inv _ _ _ _ _ _ _ _ H) as (e & s & _ & He & _).
      apply parse_date_OK in He. destruct He as [He|[_ He]]; [left|right]; congruence.
    + intros H.
      destruct (parse_date end_s "Invalid end_date format") as [e|c d] eqn:Ee.
      * rewrite (create_without_start _ _ _ _ now _ _ Ht Ee Es).
        eexists. eexists. reflexivity.
      * apply parse_date_error in Ee. destruct Ee as (H1 & H2 & _).
        destruct H as [H|H]; contradiction.
Qed.

End Create.


(** ** Updating and deleting announcements *)

Section UpdateDelete.
Context {L : Library}.

Lemma parses_parse_date (s detail : string) :
  parses s = true -> exists dt, parse_date s detail = OK dt.
Proof.
  unfold parses, parse_date.
  destruct (fromisoformat s) as [a|]; [intros _; exists a; reflexivity|].
  destruct (fromisoformat (s ++ "T00:00:00")) as [b|]; [|discriminate].
  intros _. exists b. reflexivity.
Qed.

(** The [update] dict holds a message only when one was provided, and then
    that message. *)
Lemma build_update_message (msg end_s start_s : option string)
      (update : list set_entry) (m : string) :
  build_update msg end_s start_s = OK update ->
  In (set_message m) update -> msg = Some m.
Proof.
  unfold build_update. intros H Hin.
  destruct end_s as [es|]; simpl in H.
  - destruct (parse_date es "Invalid end_date format") as [e|]; simpl in H; [|discriminate].
    destruct start_s as [ss|]; simpl in H.
    + destruct (ss =? ""); simpl in H.
      * injection H as <-. destruct msg as [m0|]; simpl in Hin;
          intuition (try discriminate; congruence).
      * destruct (parse_date ss "Invalid start_date format"); simpl in H; [|discriminate].
        injection H as <-. destruct msg as [m0|]; simpl in Hin;
          intuition (try discriminate; congruence).
    + injection H as <-. destruct msg as [m0|]; simpl in Hin;
        intuition (try discriminate; congruence).
  - destruct start_s as [ss|]; simpl in H.
    + destruct (ss =? ""); simpl in H.
      * injection H as <-. destruct msg as [m0|]; simpl in Hin;
          intuition (try discriminate; congruence).
      * destruct (parse_date ss "Invalid start_date format"); simpl in H; [|discriminate].
        injection H as <-. destruct msg as [m0|]; simpl in Hin;
          intuition (try discriminate; congruence).
    + injection H as <-. destruct msg as [m0|]; simpl in Hin;
        intuition (try discriminate; congruence).
Qed.

(** With a field provided and every provided date accepted, the [update]
    dict is built and is not empty. *)
Lemma build_update_nonempty (msg end_s start_s : option string) :
  (msg <> None \/ end_s <> None \/ start_s <> None) ->
  (forall str, end_s = Some str -> parses str = true) ->
  (forall str, start_s = Some str -> str <> "" -> parses str = true) ->
  exists e update, build_update msg end_s start_s = OK (e :: update).
Proof.
  intros Hsome He Hs. unfold build_update.
  destruct end_s as [es|].
  - destruct (parses_parse_date es "Invalid end_date format" (He es eq_refl)) as [e Ee].
    rewrite Ee. simpl.
    destruct start_s as [ss|]; simpl.
    + destruct (String.eqb_spec ss "") as [->|Hne]; simpl.
      * destruct msg; simpl; eexists; eexists; reflexivity.
      * destruct (parses_parse_date ss "Invalid start_date format" (Hs ss eq_refl Hne))
          as [dt Edt].
        rewrite Edt. simpl. destruct msg; simpl; eexists; eexists; reflexivity.
    + destruct msg; simpl; eexists; eexists; reflexivity.
  - simpl. destruct start_s as [ss|]; simpl.
    + destruct (String.eqb_spec ss "") as [->|Hne]; simpl.
      * destruct msg; simpl; eexists; eexists; reflexivity.
      * destruct (parses_parse_date ss "Invalid start_date format" (Hs ss eq_refl Hne))
          as [dt Edt].
        rewrite Edt. simpl. destruct msg; simpl; eexists; eexists; reflexivity.
    + destruct msg as [m|]; simpl; [eexists; eexists; reflexivity|].
      exfalso. destruct Hsome as [H|[H|H]]; apply H; reflexivity.
Qed.

(** C5. An update call by a known teacher with a well-formed id and none of
    [message], [end_date], [start_date] provided fails with InvalidArgument
    (400, "No fields to update") and leaves the whole database, hence every
    stored announcement, as it was. *)
Theorem update_no_fields (announcement_id teacher_username : string)
      (db : database) (oid : N) :
  In teacher_username (teachers_collection db) ->
  ObjectId announcement_id = Some oid ->
  update_announcement announcement_id None None None teacher_username db
  = (HTTPException 400 "No fields to update", db).
Proof.
  intros Ht Hid. unfold update_announcement.
  rewrite (find_teacher_known _ _ Ht), Hid. reflexivity.
Qed.

(** C6. An update call by a known teacher on the id of a stored
    announcement, with [start_date] the empty string and no other field,
    succeeds; afterwards the announcement has a null [start_date] and its
    id, message, [end_date], [created_by] and [created_at] as before, and
    the announcements under other ids and the teachers are untouched. *)
Theorem update_clear_start_date (announcement_id teacher_username : string)
      (db : database) (oid : N) (doc : document) :
  In teacher_username (teachers_collection db) ->
  ObjectId announcement_id = Some oid ->
  find_one oid (announcements_collection db) = Some doc ->
  exists doc' db',
    update_announcement announcement_id None None (Some "") teacher_username db
    = (OK (_serialize doc'), db')
    /\ find_one oid (announcements_collection db') = Some doc'
    /\ start_date doc' = None
    /\ _id doc' = _id doc
    /\ message doc' = message doc
    /\ end_date doc' = end_date doc
    /\ created_by doc' = created_by doc
    /\ created_at doc' = created_at doc
    /\ (forall o, o <> oid ->
          find_one o (announcements_collection db')
          = find_one o (announcements_collection db))
    /\ length (announcements_collection db') = length (announcements_collection db)
    /\ teachers_collection db' = teachers_collection db.
Proof.
  intros Ht Hid Hf. unfold update_announcement.
  rewrite (find_teacher_known _ _ Ht), Hid. simpl.
  destruct (update_one_found oid [set_start_date None] _ _ Hf) as (H1 & H2 & H3 & H4).
  destruct (update_one oid [set_start_date None] (announcements_collection db))
    as [n c] eqn:Eu.
  simpl in *. subst n. simpl. rewrite H2.
  eexists. eexists. split; [reflexivity|]. simpl.
  repeat split; assumption.
Qed.


Lemma parse_date_status (s detail : string) (c : nat) (d : string) :
  parse_date s detail = HTTPException c d -> c = 400.
Proof. intros H. apply parse_date_error in H. tauto. Qed.

Lemma build_update_status (msg end_s start_s : option string) (c : nat) (d : string) :
  build_update msg end_s start_s = HTTPException c d -> c = 400.
Proof.
  unfold build_update.
  destruct end_s as [es|]; simpl.
  - destruct (parse_date es "Invalid end_date format") eqn:Ee; simpl.
    + destruct start_s as [ss|]; simpl; [|discriminate].
      destruct (ss =? ""); simpl; [discriminate|].
      destruct (parse_date ss "Invalid start_date format") eqn:Es; simpl; [discriminate|].
      intros H. injection H as <- <-. exact (parse_date_status _ _ _ _ Es).
    + intros H. injection H as <- <-. exact (parse_date_status _ _ _ _ Ee).
  - destruct start_s as [ss|]; simpl; [|discriminate].
    destruct (ss =? ""); simpl; [discriminate|].
    destruct (parse_date ss "Invalid start_date format") eqn:Es; simpl; [discriminate|].
    intros H. injection H as <- <-. exact (parse_date_status _ _ _ _ Es).
Qed.



(** *** Invariants of the collection *)

Lemma update_one_forallb (P : document -> bool) (oid : N) (update : list set_entry)
      (c : list document) :
  (forall d, P d = true -> P (apply_set update d) = true) ->
  forallb P c = true -> forallb P (snd (update_one oid update c)) = true.
Proof.
  intros HP. induction c as [|x c IH]; simpl; [reflexivity|].
  intros H. apply andb_true_iff in H. destruct H as [Hx Hc].
  destruct (has_id oid x); simpl.
  - rewrite (HP x Hx), Hc. reflexivity.
  - specialize (IH Hc). destruct (update_one oid update c) as [n c'']. simpl in *.
    rewrite Hx, IH. reflexivity.
Qed.

Lemma delete_one_forallb (P : document -> bool) (oid : N) (c : list document) :
  forallb P c = true -> forallb P (snd (delete_one oid c)) = true.
Proof.
  intros H. apply forallb_forall. intros d Hd.
  rewrite forallb_forall in H. apply H, (delete_one_incl oid c), Hd.
Qed.

Lemma apply_set_nonempty_message (update : list set_entry) (d : document) :
  (forall m, In (set_message m) update -> m <> "") ->
  nonempty_message d = true -> nonempty_message (apply_set update d) = true.
Proof.
  unfold apply_set. revert d.
  induction update as [|e u IH]; intros d Hm Hd; simpl; [exact Hd|].
  apply IH.
  - intros m Hin. apply Hm. right. exact Hin.
  - destruct e as [m| |]; try exact Hd.
    unfold nonempty_message. simpl.
    apply negb_true_iff, String.eqb_neq, Hm. left. reflexivity.
Qed.

Lemma create_error_db (msg end_s : string) (start_s : option string)
      (teacher_username : string) (now : datetime) (db db' : database)
      (c : nat) (d : string) :
  create_announcement msg end_s start_s teacher_username now db
  = (HTTPException c d, db') -> db' = db.
Proof.
  unfold create_announcement.
  destruct (find_teacher teacher_username db) as [t|]; [|intros H; congruence].
  destruct (parse_date end_s "Invalid end_date format") as [e|c0 d0]; simpl;
    [|intros H; congruence].
  destruct start_s as [ss|]; simpl; [|discriminate].
  destruct (negb (ss =? "")); simpl; [|discriminate].
  destruct (parse_date ss "Invalid start_date format") as [dt|c1 d1]; simpl;
    [discriminate|].
  intros H. congruence.
Qed.

(** C7, as the router has it.  Create and update store the message they are
    given: with every stored message non-empty, the collection stays so
    after a create call whose message is not the empty string, and after an
    update call whose message is absent or not the empty string. *)
Theorem nonempty_message_preserved (teacher_username : string) (db : database) :
  messages_nonempty db ->
  (forall msg end_s start_s now,
      msg <> "" ->
      messages_nonempty
        (snd (create_announcement msg end_s start_s teacher_username now db)))
  /\ (forall announcement_id msg end_s start_s,
         msg <> Some "" ->
         messages_nonempty
           (snd (update_announcement announcement_id msg end_s start_s
                                     teacher_username db))).
Proof.
  intros Hinv. split.
  - intros msg end_s start_s now Hmsg.
    destruct (create_announcement msg end_s start_s teacher_username now db)
      as [[v|c d] db'] eqn:E.
    + destruct (create_inv _ _ _ _ _ _ _ _ E) as (e & s & _ & _ & _ & _ & ->).
      unfold messages_nonempty in *. simpl.
      rewrite forallb_app, Hinv. simpl.
      unfold nonempty_message. simpl.
      apply String.eqb_neq in Hmsg. rewrite Hmsg. reflexivity.
    + rewrite (create_error_db _ _ _ _ _ _ _ _ _ E). exact Hinv.
  - intros announcement_id msg end_s start_s Hmsg.
    unfold update_announcement.
    destruct (find_teacher teacher_username db); [|exact Hinv].
    destruct (ObjectId announcement_id) as [oid|]; [|exact Hinv].
    destruct (build_update msg end_s start_s) as [[|e u]|c d] eqn:Eu;
      [exact Hinv | | exact Hinv].
    assert (messages_nonempty
              (with_announcements db
                 (snd (update_one oid (e :: u) (announcements_collection db))))) as H.
    { unfold messages_nonempty. simpl. apply update_one_forallb; [|exact Hinv].
      intros x Hx. apply apply_set_nonempty_message; [|exact Hx].
      intros m Hin ->. apply Hmsg. exact (build_update_message _ _ _ _ _ Eu Hin). }
    destruct (update_one oid (e :: u) (announcements_collection db)) as [n c'].
    simpl in H.
    destruct (Nat.eqb n 0); [exact H|].
    destruct (find_one oid (announcements_collection (with_announcements db c')));
      exact H.
Qed.

(** The ids handed out stay below the generator's next id. *)
Lemma ids_issued_preserved (teacher_username : string) (db : database) :
  ids_issued db ->
  (forall msg end_s start_s now,
      ids_issued (snd (create_announcement msg end_s start_s teacher_username now db)))
  /\ (forall announcement_id msg end_s start_s,
         ids_issued (snd (update_announcement announcement_id msg end_s start_s
                                              teacher_username db)))
  /\ (forall announcement_id,
         ids_issued (snd (delete_announcement announcement_id teacher_username db))).
Proof.
  intros Hinv. split; [|split].
  - intros msg end_s start_s now.
    destruct (create_announcement msg end_s start_s teacher_username now db)
      as [[v|c d] db'] eqn:E.
    + destruct (create_inv _ _ _ _ _ _ _ _ E) as (e & s & _ & _ & _ & _ & ->).
      unfold ids_issued in *. simpl.
      rewrite forallb_app. apply andb_true_iff. split.
      * rewrite forallb_forall in *. intros x Hx. specialize (Hinv x Hx).
        unfold issued in *. destruct (_id x); [|reflexivity].
        apply N.ltb_lt. apply N.ltb_lt in Hinv. lia.
      * simpl. unfold issued. simpl. rewrite andb_true_r. apply N.ltb_lt. lia.
    + rewrite (create_error_db _ _ _ _ _ _ _ _ _ E). exact Hinv.
  - intros announcement_id msg end_s start_s.
    unfold update_announcement.
    destruct (find_teacher teacher_username db); [|exact Hinv].
    destruct (ObjectId announcement_id) as [oid|]; [|exact Hinv].
    destruct (build_update msg end_s start_s) as [[|e u]|c d] eqn:Eu;
      [exact Hinv | | exact Hinv].
    assert (ids_issued
              (with_announcements db
                 (snd (update_one oid (e :: u) (announcements_collection db))))) as H.
    { unfold ids_issued. simpl. apply update_one_forallb; [|exact Hinv].
      intros x Hx. unfold issued in *.
      replace (_id (apply_set (e :: u) x)) with (_id x); [exact Hx|].
      unfold apply_set. generalize (e :: u). intros l. revert x Hx.
      induction l as [|a l IH]; intros x Hx; simpl; [reflexivity|].
      rewrite <- IH; destruct a; try reflexivity; exact Hx. }
    destruct (update_one oid (e :: u) (announcements_collection db)) as [n c'].
    simpl in H.
    destruct (Nat.eqb n 0); [exact H|].
    destruct (find_one oid (announcements_collection (with_announcements db c')));
      exact H.
  - intros announcement_id. unfold delete_announcement.
    destruct (find_teacher teacher_username db); [|exact Hinv].
    destruct (ObjectId announcement_id) as [oid|]; [|exact Hinv].
    assert (ids_issued
              (with_announcements db
                 (snd (delete_one oid (announcements_collection db))))) as H.
    { unfold ids_issued. simpl. apply delete_one_forallb. exact Hinv. }
    destruct (delete_one oid (announcements_collection db)) as [n c'].
    simpl in H. destruct (Nat.eqb n 0); exact H.
Qed.

End UpdateDelete.


(** ** The executable library on calendar dates *)

Section PyDates.
Import PyLibrary.

Lemma digit_digit_char (n : N) : digit (digit_char n) = Some (n mod 10)%N.
Proof.
  unfold digit, digit_char.
  assert (n mod 10 < 10)%N as Hlt by (apply N.mod_lt; discriminate).
  generalize dependent (n mod 10)%N. intros r Hr.
  rewrite N_ascii_embedding by lia.
  replace ((48 <=? 48 + r)%N) with true by (symmetry; apply N.leb_le; lia).
  replace ((48 + r <=? 57)%N) with true by (symmetry; apply N.leb_le; lia).
  cbv [andb]. f_equal. lia.
Qed.

(** Quotient and remainder by ten, as linear facts. *)
Lemma div_mod_10 (n : N) : (n = 10 * (n / 10) + n mod 10 /\ n mod 10 < 10)%N.
Proof.
  split; [apply N.div_mod; discriminate | apply N.mod_lt; discriminate].
Qed.

Lemma digits_zfill2 (n : N) :
  (n < 100)%N -> digits [digit_char (n / 10); digit_char n] 0 = Some n.
Proof.
  intros Hn. unfold digits. rewrite !digit_digit_char. f_equal.
  destruct (div_mod_10 n) as [H1 H2].
  generalize dependent (n mod 10)%N. intros r1 H1 H2.
  rewrite (N.mod_small (n / 10) 10) by lia. lia.
Qed.

Lemma digits_zfill4 (n : N) :
  (n < 10000)%N ->
  digits [digit_char (n / 10 / 10 / 10); digit_char (n / 10 / 10);
          digit_char (n / 10); digit_char n] 0 = Some n.
Proof.
  intros Hn. unfold digits. rewrite !digit_digit_char. f_equal.
  destruct (div_mod_10 n) as [H1 H2].
  destruct (div_mod_10 (n / 10)) as [H3 H4].
  destruct (div_mod_10 (n / 10 / 10)) as [H5 H6].
  generalize dependent (n mod 10)%N. intros r1 H1 H2.
  generalize dependent ((n / 10) mod 10)%N. intros r2 H3 H4.
  generalize dependent ((n / 10 / 10) mod 10)%N. intros r3 H5 H6.
  rewrite (N.mod_small (n / 10 / 10 / 10) 10) by lia. lia.
Qed.

Lemma days_in_month_le (y m : N) : (days_in_month y m <= 31)%N.
Proof.
  unfold days_in_month.
  destruct m as [|[[[[|?|]|[|?|]|]|[[|?|]|[|?|]|]|]|[[[|?|]|[|?|]|]|[[|?|]|[|?|]|]|]|]];
    try destruct (is_leap y); lia.
Qed.

(** A calendar date written [YYYY-MM-DD] parses to midnight of that day. *)
Lemma py_fromisoformat_date (y m d : N) :
  check_fields y m d 0 0 0 0 = true ->
  py_fromisoformat (isoformat_date y m d) = Some (mkDate y m d 0 0 0 0 None).
Proof.
  intros Hc. pose proof Hc as Hc'. unfold check_fields in Hc'.
  repeat (apply andb_true_iff in Hc'; destruct Hc' as [Hc' ?]).
  repeat match goal with H : (_ <=? _)%N = true |- _ => apply N.leb_le in H end.
  pose proof (days_in_month_le y m).
  unfold py_fromisoformat, isoformat_date.
  cbn -[digit_char digits N.div new_datetime].
  rewrite digits_zfill4, !digits_zfill2 by lia.
  unfold new_datetime. rewrite Hc. reflexivity.
Qed.

End PyDates.


(** ** The end date of a created announcement *)

Section CreateEndDate.
Import PyLibrary.

Lemma stores_end_date_intro {L : Library} (msg end_s : string) (start_s : option string)
      (teacher_username : string) (now : datetime) (db : database) (dt : datetime) :
  In teacher_username (teachers_collection db) ->
  truthy start_s = false ->
  fromisoformat end_s = Some dt ->
  stores_end_date (create_announcement msg end_s start_s teacher_username now db) db dt.
Proof.
  intros Ht Hs He.
  assert (parse_date end_s "Invalid end_date format" = OK dt) as Hp
      by (apply parse_date_OK; left; exact He).
  rewrite (create_without_start _ _ _ _ now _ _ Ht Hp Hs).
  eexists. eexists. split; reflexivity.
Qed.

(** C2. For a create call by a known teacher, whatever the library's parser:
    the call is rejected for its [end_date] exactly when the string parses
    neither as it is nor as a bare date (with ["T00:00:00"] appended), and
    then it fails with InvalidArgument and stores nothing; a successful
    call stores the date-time of the first parse that succeeds; and without
    a start date the call succeeds exactly when one of the two parses does.
    With the executable parser, every calendar date [YYYY-MM-DD] is stored as
    midnight of that day, ["2099-12-31"] as midnight of that date,
    ["2099-12-31T10:00:00"] as that exact time, and ["next Friday"] is
    rejected. *)
Theorem create_end_date_parse :
  (forall (L : Library) (msg end_s : string) (start_s : option string)
          (teacher_username : string) (now : datetime) (db : database),
      In teacher_username (teachers_collection db) ->
      (fst (create_announcement msg end_s start_s teacher_username now db)
       = HTTPException 400 "Invalid end_date format"
       <-> fromisoformat end_s = None /\ fromisoformat (end_s ++ "T00:00:00") = None)
      /\ (fromisoformat end_s = None -> fromisoformat (end_s ++ "T00:00:00") = None ->
          InvalidArgument
            (fst (create_announcement msg end_s start_s teacher_username now db))
          /\ snd (create_announcement msg end_s start_s teacher_username now db) = db)
      /\ (forall v db',
            create_announcement msg end_s start_s teacher_username now db = (OK v, db') ->
            exists doc dt,
              announcements_collection db' = announcements_collection db ++ [doc]
              /\ end_date doc = Some dt
              /\ (fromisoformat end_s = Some dt
                  \/ (fromisoformat end_s = None
                      /\ fromisoformat (end_s ++ "T00:00:00") = Some dt)))
      /\ (truthy start_s = false ->
          ((exists v db',
               create_announcement msg end_s start_s teacher_username now db
               = (OK v, db'))
           <-> (fromisoformat end_s <> None
                \/ fromisoformat (end_s ++ "T00:00:00") <> None))))
  /\ (forall (msg teacher_username : string) (now : pydatetime) (db : @database py),
         In teacher_username (teachers_collection db) ->
         (forall y m d,
             check_fields y m d 0 0 0 0 = true ->
             stores_end_date
               (create_announcement msg (isoformat_date y m d) None
                                    teacher_username now db)
               db (mkDate y m d 0 0 0 0 None))
         /\ stores_end_date
              (create_announcement msg "2099-12-31" None teacher_username now db)
              db (mkDate 2099 12 31 0 0 0 0 None)
         /\ stores_end_date
              (create_announcement msg "2099-12-31T10:00:00" None teacher_username now db)
              db (mkDate 2099 12 31 10 0 0 0 None)
         /\ create_announcement msg "next Friday" None teacher_username now db
            = (HTTPException 400 "Invalid end_date format", db)).
Proof.
  split.
  - intros L. apply create_end_date_decides.
  - intros msg teacher_username now db Ht. split; [|split; [|split]].
    + intros y m d Hc. apply stores_end_date_intro; [exact Ht | reflexivity|].
      apply py_fromisoformat_date, Hc.
    + apply stores_end_date_intro; [exact Ht | reflexivity | reflexivity].
    + apply stores_end_date_intro; [exact Ht | reflexivity | reflexivity].
    + apply (create_end_date_error (L := py)); [exact Ht | reflexivity].
Qed.

End CreateEndDate.

(** ** The statements on the sample database *)

Section OnSample.
Import PyLibrary.

Lemma sample_teacher : In "mchen" (teachers_collection Sample.db).
Proof. simpl. tauto. Qed.

Lemma sample_ids_distinct : NoDup (map view_id (announcements_collection Sample.db)).
Proof.
  vm_compute. repeat constructor; simpl; intuition discriminate.
Qed.

(** On the sample database the science fair, with no start date and an end
    date in 2030, is listed as active. *)
Lemma list_active_iff_witness :
  NoDup (map view_id (announcements_collection Sample.db))
  /\ In Sample.science_fair (announcements_collection Sample.db)
  /\ In (_serialize Sample.science_fair)
        (get_active_announcements Sample.now Sample.db).
Proof.
  assert (In Sample.science_fair (announcements_collection Sample.db)) as Hin
      by (left; reflexivity).
  split; [exact sample_ids_distinct|]. split; [exact Hin|].
  apply (list_active_iff (L := py) Sample.now Sample.db Sample.science_fair
                         sample_ids_distinct Hin).
  split.
  - eexists. split; [reflexivity|]. vm_compute. discriminate.
  - left. reflexivity.
Defined.

(** A create call with end date ["2099-12-31"] on the sample database. *)
Lemma create_end_date_parse_witness :
  In "mchen" (teachers_collection Sample.db)
  /\ stores_end_date
       (create_announcement "Sports day" "2099-12-31" None "mchen" Sample.now Sample.db)
       Sample.db (mkDate 2099 12 31 0 0 0 0 None).
Proof.
  split; [exact sample_teacher|].
  exact (proj1 (proj2 (proj2 create_end_date_parse "Sports day" "mchen" Sample.now
                             Sample.db sample_teacher))).
Defined.

(** A create call by a user who is no teacher of the sample database. *)
Lemma create_unknown_teacher_witness :
  ~ In "nobody" (teachers_collection Sample.db)
  /\ snd (create_announcement "Sports day" "2099-12-31" None "nobody"
                              Sample.now Sample.db) = Sample.db.
Proof.
  assert (~ In "nobody" (teachers_collection Sample.db)) as Hn
      by (simpl; intuition discriminate).
  split; [exact Hn|].
  exact (proj2 (create_unknown_teacher (L := py) "Sports day" "2099-12-31" None "nobody"
                                       Sample.now Sample.db Hn)).
Defined.



(** An update call without fields on a stored announcement. *)
Lemma update_no_fields_witness :
  In "mchen" (teachers_collection Sample.db)
  /\ ObjectId "000000000000000000000002" = Some 2%N
  /\ update_announcement "000000000000000000000002" None None None "mchen" Sample.db
     = (HTTPException 400 "No fields to update", Sample.db).
Proof.
  split; [exact sample_teacher|]. split; [reflexivity|].
  exact (update_no_fields (L := py) "000000000000000000000002" "mchen" Sample.db 2
                          sample_teacher eq_refl).
Defined.

(** Clearing the start date of the autumn term announcement. *)
Lemma update_clear_start_date_witness :
  In "mchen" (teachers_collection Sample.db)
  /\ ObjectId "000000000000000000000002" = Some 2%N
  /\ find_one 2 (announcements_collection Sample.db) = Some Sample.autumn_term
  /\ exists doc' db',
      update_announcement "000000000000000000000002" None None (Some "") "mchen" Sample.db
      = (OK (_serialize doc'), db')
      /\ find_one 2 (announcements_collection db') = Some doc'
      /\ start_date doc' = None
      /\ message doc' = Some "Autumn term clubs are open".
Proof.
  split; [exact sample_teacher|]. split; [reflexivity|]. split; [reflexivity|].
  destruct (update_clear_start_date (L := py) "000000000000000000000002" "mchen" Sample.db 2
                                    Sample.autumn_term sample_teacher eq_refl eq_refl)
    as (doc' & db' & H1 & H2 & H3 & _ & H5 & _).
  exists doc', db'. repeat split; assumption.
Defined.

(** On the sample database, where every message is non-empty, a create call
    and an update call with the empty message both succeed, and afterwards
    a stored announcement has an empty message. *)
Lemma create_empty_message :
  In "mchen" (teachers_collection Sample.db)
  /\ messages_nonempty Sample.db
  /\ (exists v db',
         create_announcement "" "2099-12-31" None "mchen" Sample.now Sample.db
         = (OK v, db')
         /\ View.message v = Some ""
         /\ ~ messages_nonempty db')
  /\ (exists v db',
         update_announcement "000000000000000000000002" (Some "") None None
                             "mchen" Sample.db
         = (OK v, db')
         /\ View.message v = Some ""
         /\ ~ messages_nonempty db').
Proof.
  split; [exact sample_teacher|]. split; [reflexivity|]. split.
  - eexists. eexists. split; [reflexivity|]. split; [reflexivity|].
    unfold messages_nonempty. vm_compute. discriminate.
  - eexists. eexists. split; [reflexivity|]. split; [reflexivity|].
    unfold messages_nonempty. vm_compute. discriminate.
Qed.

(** A create call and an update call with non-empty messages. *)
Lemma nonempty_message_preserved_witness :
  messages_nonempty Sample.db
  /\ messages_nonempty
       (snd (create_announcement "Sports day" "2099-12-31" None "mchen"
                                 Sample.now Sample.db))
  /\ messages_nonempty
       (snd (update_announcement "000000000000000000000002" (Some "Clubs are full")
                                 None None "mchen" Sample.db)).
Proof.
  assert (messages_nonempty Sample.db) as Hinv by reflexivity.
  destruct (nonempty_message_preserved (L := py) "mchen" Sample.db Hinv) as [Hc Hu].
  split; [exact Hinv|]. split.
  - apply Hc. discriminate.
  - apply Hu. discriminate.
Defined.

(** The listing of all announcements of the sample database. *)
Lemma listings_sorted_witness :
  exists docs,
    get_all_announcements "mchen" Sample.db = OK (map _serialize docs)
    /\ StronglySorted end_date_le docs
    /\ Permutation docs (announcements_collection Sample.db).
Proof.
  destruct (proj2 (listings_sorted (L := py) Sample.now "mchen" Sample.db) _ eq_refl)
    as (docs & H1 & H2 & H3).
  exists docs. split; [|split; assumption].
  rewrite <- H1. reflexivity.
Defined.

(** A create call with the empty string as start date. *)
Lemma create_empty_start_date_witness :
  In "mchen" (teachers_collection Sample.db)
  /\ create_announcement "Sports day" "2099-12-31" (Some "") "mchen" Sample.now Sample.db
     = create_announcement "Sports day" "2099-12-31" None "mchen" Sample.now Sample.db
  /\ exists v db',
      create_announcement "Sports day" "2099-12-31" (Some "") "mchen" Sample.now Sample.db
      = (OK v, db')
      /\ View.start_date v = None.
Proof.
  split; [exact sample_teacher|].
  destruct (create_empty_start_date (L := py) "Sports day" "2099-12-31" "mchen" Sample.now
                                    Sample.db sample_teacher) as (H1 & _ & H3).
  split; [exact H1|].
  destruct (H3 _ eq_refl) as (v & doc & Hc & _ & _ & Hv).
  eexists. eexists. split; [exact Hc | exact Hv].
Defined.

End OnSample.


(** ** The endpoints, outcome by outcome *)

Section Outcomes.
Context {L : Library}.

Lemma with_announcements_same (db : database) :
  with_announcements db (announcements_collection db) = db.
Proof. destruct db; reflexivity. Qed.

Lemma find_one_None (oid : N) (c : list document) :
  find_one oid c = None <-> (forall d, In d c -> has_id oid d = false).
Proof.
  unfold find_one. split.
  - intros H d Hd. exact (find_none _ _ H d Hd).
  - induction c as [|x c IH]; simpl; [reflexivity|].
    intros H. rewrite (H x (or_introl eq_refl)).
    apply IH. intros d Hd. apply H. right. exact Hd.
Qed.

Lemma find_one_has_id (oid : N) (c : list document) (d : document) :
  find_one oid c = Some d -> In d c /\ _id d = Some oid.
Proof.
  unfold find_one. intros H. apply find_some in H. destruct H as [Hin Hid].
  split; [exact Hin|]. unfold has_id in Hid.
  destruct (_id d) as [o|]; [|discriminate].
  apply N.eqb_eq in Hid. subst o. reflexivity.
Qed.

(** [update_announcement] as a decision table. *)
Lemma update_announcement_outcome (announcement_id : string)
      (msg end_s start_s : option string) (teacher_username : string) (db : database) :
  update_announcement announcement_id msg end_s start_s teacher_username db
  = match find_teacher teacher_username db with
    | None => (HTTPException 401 "Invalid teacher credentials", db)
    | Some _ =>
        match ObjectId announcement_id with
        | None => (HTTPException 400 "Invalid announcement id", db)
        | Some oid =>
            match build_update msg end_s start_s with
            | HTTPException c d => (HTTPException c d, db)
            | OK [] => (HTTPException 400 "No fields to update", db)
            | OK (e :: u) =>
                match find_one oid (announcements_collection db) with
                | None => (HTTPException 404 "Announcement not found", db)
                | Some doc =>
                    (OK (_serialize (apply_set (e :: u) doc)),
                     with_announcements db
                       (snd (update_one oid (e :: u) (announcements_collection db))))
                end
            end
        end
    end.
Proof.
  unfold update_announcement.
  destruct (find_teacher teacher_username db) as [t|]; [|reflexivity].
  destruct (ObjectId announcement_id) as [oid|]; [|reflexivity].
  destruct (build_update msg end_s start_s) as [[|e u]|c d]; try reflexivity.
  destruct (find_one oid (announcements_collection db)) as [doc|] eqn:Ef.
  - destruct (update_one_found oid (e :: u) _ _ Ef) as (H1 & H2 & _).
    destruct (update_one oid (e :: u) (announcements_collection db)) as [n c].
    simpl in H1, H2. subst n. simpl. rewrite H2. reflexivity.
  - rewrite (update_one_missing _ _ _ Ef). simpl.
    rewrite with_announcements_same. reflexivity.
Qed.

(** [delete_announcement] as a decision table. *)
Lemma delete_announcement_outcome (announcement_id teacher_username : string)
      (db : database) :
  delete_announcement announcement_id teacher_username db
  = match find_teacher teacher_username db with
    | None => (HTTPException 401 "Invalid teacher credentials", db)
    | Some _ =>
        match ObjectId announcement_id with
        | None => (HTTPException 400 "Invalid announcement id", db)
        | Some oid =>
            match find_one oid (announcements_collection db) with
            | None => (HTTPException 404 "Announcement not found", db)
            | Some doc =>
                (OK "Announcement deleted",
                 with_announcements db
                   (snd (delete_one oid (announcements_collection db))))
            end
        end
    end.
Proof.
  unfold delete_announcement.
  destruct (find_teacher teacher_username db) as [t|]; [|reflexivity].
  destruct (ObjectId announcement_id) as [oid|]; [|reflexivity].
  destruct (find_one oid (announcements_collection db)) as [doc|] eqn:Ef.
  - destruct (delete_one_found oid _ _ Ef) as [H1 _].
    destruct (delete_one oid (announcements_collection db)) as [n c].
    simpl in H1. subst n. reflexivity.
  - rewrite (delete_one_missing _ _ Ef). simpl.
    rewrite with_announcements_same. reflexivity.
Qed.

Lemma find_teacher_with_announcements (u : string) (db : database) (c : list document) :
  find_teacher u (with_announcements db c) = find_teacher u db.
Proof. reflexivity. Qed.

(** X1. An unknown [teacher_username] is turned away first: the full
    listing, update and delete answer 401 whatever the id and the fields
    are, and the database stays as it was. *)
Theorem unknown_teacher_rejected (teacher_username : string) (db : database) :
  ~ In teacher_username (teachers_collection db) ->
  get_all_announcements teacher_username db
  = HTTPException 401 "Invalid teacher credentials"
  /\ (forall announcement_id msg end_s start_s,
         update_announcement announcement_id msg end_s start_s teacher_username db
         = (HTTPException 401 "Invalid teacher credentials", db))
  /\ (forall announcement_id,
         delete_announcement announcement_id teacher_username db
         = (HTTPException 401 "Invalid teacher credentials", db)).
Proof.
  intros Hn. pose proof (find_teacher_unknown _ _ Hn) as Hf. split; [|split].
  - unfold get_all_announcements. rewrite Hf. reflexivity.
  - intros. rewrite update_announcement_outcome, Hf. reflexivity.
  - intros. rewrite delete_announcement_outcome, Hf. reflexivity.
Qed.

(** X2. There is no ownership check: the full listing, update and delete
    answer two known teachers alike, whoever created the announcement. *)
Theorem any_teacher_may_write (teacher1 teacher2 : string) (db : database) :
  In teacher1 (teachers_collection db) ->
  In teacher2 (teachers_collection db) ->
  get_all_announcements teacher1 db = get_all_announcements teacher2 db
  /\ (forall announcement_id msg end_s start_s,
         update_announcement announcement_id msg end_s start_s teacher1 db
         = update_announcement announcement_id msg end_s start_s teacher2 db)
  /\ (forall announcement_id,
         delete_announcement announcement_id teacher1 db
         = delete_announcement announcement_id teacher2 db).
Proof.
  intros H1 H2.
  pose proof (find_teacher_known _ _ H1) as F1.
  pose proof (find_teacher_known _ _ H2) as F2.
  split; [|split].
  - unfold get_all_announcements. rewrite F1, F2. reflexivity.
  - intros. rewrite !update_announcement_outcome, F1, F2. reflexivity.
  - intros. rewrite !delete_announcement_outcome, F1, F2. reflexivity.
Qed.

(** X3. For a known teacher the full listing shows every stored
    announcement, each once: it is a rearrangement of the serialised
    collection, so it has as many entries as there are documents, and a
    view is listed exactly when it is the view of a stored document. *)
Theorem list_all_complete (teacher_username : string) (db : database) :
  In teacher_username (teachers_collection db) ->
  exists views,
    get_all_announcements teacher_username db = OK views
    /\ Permutation views (map _serialize (announcements_collection db))
    /\ length views = length (announcements_collection db)
    /\ (forall v, In v views <->
                  exists d, In d (announcements_collection db) /\ v = _serialize d).
Proof.
  intros Ht. unfold get_all_announcements. rewrite (find_teacher_known _ _ Ht).
  eexists. split; [reflexivity|].
  assert (Permutation (map _serialize (sort_end_date (announcements_collection db)))
                      (map _serialize (announcements_collection db))) as Hp
      by (apply Permutation_map, sort_end_date_perm).
  split; [exact Hp|]. split.
  - rewrite (Permutation_length Hp). apply length_map.
  - intros v. rewrite in_map_iff. split.
    + intros (d & Hd & Hin). exists d. split; [|symmetry; exact Hd].
      apply sort_end_date_In, Hin.
    + intros (d & Hin & ->). exists d. split; [reflexivity|].
      apply sort_end_date_In, Hin.
Qed.

(** X4. The public listing is part of the full listing: every view the
    active listing shows is in the full listing a known teacher gets, it
    has no more entries, and each entry is the view of a stored document
    that the query selects. *)
Theorem active_within_all (now : datetime) (teacher_username : string)
      (db : database) (views : list View.t) :
  get_all_announcements teacher_username db = OK views ->
  incl (get_active_announcements now db) views
  /\ length (get_active_announcements now db) <= length views
  /\ (forall v, In v (get_active_announcements now db) ->
                exists d, In d (announcements_collection db)
                          /\ query now d = true /\ v = _serialize d).
Proof.
  unfold get_all_announcements, get_active_announcements.
  destruct (find_teacher teacher_username db); [|discriminate].
  intros H. injection H as <-.
  assert (forall v,
             In v (map _serialize
                       (sort_end_date (filter (query now) (announcements_collection db)))) ->
             exists d, In d (announcements_collection db)
                       /\ query now d = true /\ v = _serialize d) as Hsel.
  { intros v Hv. apply in_map_iff in Hv. destruct Hv as (d & Hd & Hin).
    apply sort_end_date_In, filter_In in Hin. destruct Hin as [Hin Hq].
    exists d. repeat split; [exact Hin | exact Hq | symmetry; exact Hd]. }
  split; [|split; [|exact Hsel]].
  - intros v Hv. destruct (Hsel v Hv) as (d & Hin & _ & ->).
    apply in_map, sort_end_date_In, Hin.
  - rewrite !length_map.
    rewrite (Permutation_length (sort_end_date_perm _)).
    rewrite (Permutation_length (sort_end_date_perm _)).
    apply filter_length_le.
Qed.

End Outcomes.


(** ** Deleting *)

Section Delete.
Context {L : Library}.

Lemma delete_one_split (oid : N) (c : list document) (doc : document) :
  find_one oid c = Some doc ->
  exists l1 l2,
    c = l1 ++ doc :: l2
    /\ (forall d, In d l1 -> has_id oid d = false)
    /\ delete_one oid c = (1, l1 ++ l2).
Proof.
  unfold find_one. induction c as [|x c IH]; simpl; [discriminate|].
  destruct (has_id oid x) eqn:E.
  - intros H. injection H as ->. exists [], c. repeat split. intros d [].
  - intros H. destruct (IH H) as (l1 & l2 & Hc & Hl1 & Hd).
    exists (x :: l1), l2. rewrite Hd. subst c. repeat split.
    intros d [<-|Hin]; [exact E | exact (Hl1 d Hin)].
Qed.

(** X5. A delete call by a known teacher on the id of a stored announcement
    answers "Announcement deleted" and removes exactly that document, the
    first one stored under the id: the documents before and after it keep
    their order, and the teachers and the id generator are untouched. *)
Theorem delete_removes_one (announcement_id teacher_username : string)
      (db : database) (oid : N) (doc : document) :
  In teacher_username (teachers_collection db) ->
  ObjectId announcement_id = Some oid ->
  find_one oid (announcements_collection db) = Some doc ->
  exists l1 l2,
    announcements_collection db = l1 ++ doc :: l2
    /\ (forall d, In d l1 -> _id d <> Some oid)
    /\ delete_announcement announcement_id teacher_username db
       = (OK "Announcement deleted",
          mkDb (l1 ++ l2) (teachers_collection db) (next_oid db)).
Proof.
  intros Ht Hid Hf.
  destruct (delete_one_split _ _ _ Hf) as (l1 & l2 & Hc & Hl1 & Hd).
  exists l1, l2. split; [exact Hc|]. split.
  - intros d Hin Heq. specialize (Hl1 d Hin). unfold has_id in Hl1.
    rewrite Heq, N.eqb_refl in Hl1. discriminate.
  - rewrite delete_announcement_outcome, (find_teacher_known _ _ Ht), Hid, Hf, Hd.
    reflexivity.
Qed.

(** X6. A delete call succeeds exactly when the teacher is known, the id is
    well formed and a document is stored under it. *)
Theorem delete_succeeds_iff (announcement_id teacher_username : string)
      (db : database) :
  (exists body db',
      delete_announcement announcement_id teacher_username db = (OK body, db'))
  <-> In teacher_username (teachers_collection db)
      /\ exists oid doc,
          ObjectId announcement_id = Some oid
          /\ find_one oid (announcements_collection db) = Some doc.
Proof.
  rewrite delete_announcement_outcome. split.
  - intros (body & db' & H).
    destruct (find_teacher teacher_username db) as [t|] eqn:Et; [|discriminate].
    split; [exact (find_teacher_Some _ _ _ Et)|].
    destruct (ObjectId announcement_id) as [oid|]; [|discriminate].
    destruct (find_one oid (announcements_collection db)) as [doc|] eqn:Ef;
      [|discriminate].
    exists oid, doc. split; [reflexivity | exact Ef].
  - intros (Ht & oid & doc & Hid & Hf).
    rewrite (find_teacher_known _ _ Ht), Hid, Hf.
    eexists. eexists. reflexivity.
Qed.

(** X7. With unique ids, once a known teacher has called delete on a
    well-formed id nothing is stored under that id any more, whether the
    call removed a document or found none; a second delete answers 404 and
    changes nothing. *)
Theorem delete_then_not_found (announcement_id teacher_username : string)
      (db : database) (oid : N) :
  In teacher_username (teachers_collection db) ->
  ObjectId announcement_id = Some oid ->
  ids_unique db ->
  let db' := snd (delete_announcement announcement_id teacher_username db) in
  find_one oid (announcements_collection db') = None
  /\ delete_announcement announcement_id teacher_username db'
     = (HTTPException 404 "Announcement not found", db').
Proof.
  intros Ht Hid Hu db'.
  assert (find_one oid (announcements_collection db') = None
          /\ teachers_collection db' = teachers_collection db) as [Hnone Hteach].
  { subst db'. rewrite delete_announcement_outcome, (find_teacher_known _ _ Ht), Hid.
    destruct (find_one oid (announcements_collection db)) as [doc|] eqn:Ef;
      [|split; [exact Ef | reflexivity]].
    destruct (delete_one_split _ _ _ Ef) as (l1 & l2 & Hc & Hl1 & Hd).
    rewrite Hd. simpl. split; [|reflexivity].
    apply find_one_None. intros d Hin.
    apply in_app_or in Hin. destruct Hin as [Hin|Hin]; [exact (Hl1 d Hin)|].
    destruct (has_id oid d) eqn:E; [exfalso|reflexivity].
    unfold ids_unique in Hu. rewrite Hc, map_app in Hu. simpl in Hu.
    apply NoDup_remove_2 in Hu. apply Hu, in_or_app. right.
    destruct (find_one_has_id _ _ _ Ef) as [_ ->].
    unfold has_id in E. destruct (_id d) as [o|] eqn:Eo; [|discriminate].
    apply N.eqb_eq in E. subst o. rewrite <- Eo. apply in_map, Hin. }
  split; [exact Hnone|].
  rewrite delete_announcement_outcome, Hid, Hnone.
  unfold find_teacher. rewrite Hteach.
  fold (find_teacher teacher_username db). rewrite (find_teacher_known _ _ Ht).
  reflexivity.
Qed.

(** X8. With the stored announcements rendered under pairwise distinct ids,
    after a successful delete the full listing is the earlier one without
    the view of the deleted document: that view is gone, every other view
    is still listed, and the listing is one entry shorter. *)
Theorem delete_then_list_all (announcement_id teacher_username requester : string)
      (db : database) (oid : N) (doc : document) (views : list View.t) :
  In teacher_username (teachers_collection db) ->
  ObjectId announcement_id = Some oid ->
  find_one oid (announcements_collection db) = Some doc ->
  NoDup (map view_id (announcements_collection db)) ->
  get_all_announcements requester db = OK views ->
  exists db' views',
    delete_announcement announcement_id teacher_username db
    = (OK "Announcement deleted", db')
    /\ get_all_announcements requester db' = OK views'
    /\ (forall v, In v views' <-> In v views /\ v <> _serialize doc)
    /\ S (length views') = length views.
Proof.
  intros Ht Hid Hf Hnd Hall.
  destruct (delete_one_split _ _ _ Hf) as (l1 & l2 & Hc & Hl1 & Hd).
  rewrite delete_announcement_outcome, (find_teacher_known _ _ Ht), Hid, Hf, Hd.
  simpl. eexists. eexists. split; [reflexivity|].
  unfold get_all_announcements in *. rewrite find_teacher_with_announcements.
  destruct (find_teacher requester db); [|discriminate].
  injection Hall as <-. split; [reflexivity|]. simpl.
  rewrite Hc in *. rewrite map_app in Hnd. simpl in Hnd.
  pose proof (NoDup_remove_2 _ _ _ Hnd) as Hfresh.
  split.
  - intros v. rewrite !in_map_iff. split.
    + intros (d & Hv & Hin). apply (proj1 (sort_end_date_In _ _)) in Hin. split.
      * exists d. split; [exact Hv|]. apply (proj2 (sort_end_date_In _ _)).
        apply in_app_or in Hin. apply in_or_app.
        destruct Hin as [Hin|Hin]; [left | right; right]; exact Hin.
      * intros Heq. apply Hfresh. rewrite <- map_app.
        replace (view_id doc) with (view_id d)
          by (unfold view_id; rewrite Hv, Heq; reflexivity).
        apply in_map, Hin.
    + intros [(d & Hv & Hin) Hne]. apply (proj1 (sort_end_date_In _ _)) in Hin.
      exists d. split; [exact Hv|]. apply (proj2 (sort_end_date_In _ _)).
      apply in_app_or in Hin. apply in_or_app.
      destruct Hin as [Hin|[Heq|Hin]]; [left; exact Hin | | right; exact Hin].
      exfalso. apply Hne. rewrite <- Hv, Heq. reflexivity.
  - rewrite !length_map.
    rewrite !(Permutation_length (sort_end_date_perm _)).
    rewrite !length_app. simpl. lia.
Qed.

End Delete.


(** ** Updating *)

Section Update.
Context {L : Library}.

Lemma apply_set_frame (update : list set_entry) (d : document) :
  _id (apply_set update d) = _id d
  /\ created_by (apply_set update d) = created_by d
  /\ created_at (apply_set update d) = created_at d.
Proof.
  unfold apply_set. revert d.
  induction update as [|e u IH]; intros d; simpl; [repeat split|].
  destruct (IH (set_field d e)) as (H1 & H2 & H3).
  rewrite H1, H2, H3. destruct e; repeat split.
Qed.

(** What the dict built from the request does to a document, field by
    field. *)
Lemma build_update_fields (msg end_s start_s : option string)
      (update : list set_entry) (doc : document) :
  build_update msg end_s start_s = OK update ->
  message (apply_set update doc)
  = match msg with Some m => Some m | None => message doc end
  /\ match end_s with
     | Some s => exists dt, parse_date s "Invalid end_date format" = OK dt
                            /\ end_date (apply_set update doc) = Some dt
     | None => end_date (apply_set update doc) = end_date doc
     end
  /\ match start_s with
     | Some s =>
         if s =? "" then start_date (apply_set update doc) = None
         else exists dt, parse_date s "Invalid start_date format" = OK dt
                         /\ start_date (apply_set update doc) = Some dt
     | None => start_date (apply_set update doc) = start_date doc
     end.
Proof.
  unfold build_update.
  destruct end_s as [es|]; simpl.
  - destruct (parse_date es "Invalid end_date format") as [e|] eqn:Ee; simpl;
      [|discriminate].
    destruct start_s as [ss|]; simpl.
    + destruct (ss =? ""); simpl.
      * intros H. injection H as <-. destruct msg; simpl; repeat split; eauto.
      * destruct (parse_date ss "Invalid start_date format") as [dt|] eqn:Es; simpl;
          [|discriminate].
        intros H. injection H as <-. destruct msg; simpl; repeat split; eauto.
    + intros H. injection H as <-. destruct msg; simpl; repeat split; eauto.
  - destruct start_s as [ss|]; simpl.
    + destruct (ss =? ""); simpl.
      * intros H. injection H as <-. destruct msg; simpl; repeat split; eauto.
      * destruct (parse_date ss "Invalid start_date format") as [dt|] eqn:Es; simpl;
          [|discriminate].
        intros H. injection H as <-. destruct msg; simpl; repeat split; eauto.
    + intros H. injection H as <-. destruct msg; simpl; repeat split; eauto.
Qed.

Lemma update_one_map {B : Type} (f : document -> B) (oid : N)
      (update : list set_entry) (c : list document) :
  (forall d, f (apply_set update d) = f d) ->
  map f (snd (update_one oid update c)) = map f c.
Proof.
  intros Hf. induction c as [|x c IH]; simpl; [reflexivity|].
  destruct (has_id oid x); simpl.
  - rewrite Hf. reflexivity.
  - destruct (update_one oid update c) as [n c'']. simpl in *.
    rewrite IH. reflexivity.
Qed.

Lemma update_announcement_maps (announcement_id : string)
      (msg end_s start_s : option string) (teacher_username : string) (db : database) :
  map _id (announcements_collection
             (snd (update_announcement announcement_id msg end_s start_s
                                       teacher_username db)))
  = map _id (announcements_collection db)
  /\ map created_by (announcements_collection
                       (snd (update_announcement announcement_id msg end_s start_s
                                                 teacher_username db)))
     = map created_by (announcements_collection db)
  /\ map created_at (announcements_collection
                       (snd (update_announcement announcement_id msg end_s start_s
                                                 teacher_username db)))
     = map created_at (announcements_collection db).
Proof.
  rewrite update_announcement_outcome.
  destruct (find_teacher teacher_username db); [|repeat split].
  destruct (ObjectId announcement_id) as [oid|]; [|repeat split].
  destruct (build_update msg end_s start_s) as [[|e u]|c d]; try (repeat split; fail).
  destruct (find_one oid (announcements_collection db)); [|repeat split].
  simpl. repeat split; apply update_one_map; intros x; apply apply_set_frame.
Qed.

(** X11. No update call, whatever its arguments and its outcome, changes
    the [_id], the [created_by] or the [created_at] of a stored
    announcement, or the number and the order of the announcements. *)
Theorem update_keeps_identity (announcement_id : string)
      (msg end_s start_s : option string) (teacher_username : string) (db : database) :
  let db' := snd (update_announcement announcement_id msg end_s start_s
                                      teacher_username db) in
  map _id (announcements_collection db') = map _id (announcements_collection db)
  /\ map created_by (announcements_collection db')
     = map created_by (announcements_collection db)
  /\ map created_at (announcements_collection db')
     = map created_at (announcements_collection db)
  /\ length (announcements_collection db') = length (announcements_collection db).
Proof.
  intros db'. subst db'.
  destruct (update_announcement_maps announcement_id msg end_s start_s
                                     teacher_username db) as (H1 & H2 & H3).
  repeat split; try assumption.
  rewrite <- (length_map _id), H1. apply length_map.
Qed.

(** Each of the three fields an update can set is, after the update,
    either a value fixed by the dict or the value it had. *)
Lemma apply_set_settled (update : list set_entry) :
  ((exists m, forall d, message (apply_set update d) = m)
   \/ (forall d, message (apply_set update d) = message d))
  /\ ((exists e, forall d, end_date (apply_set update d) = e)
      \/ (forall d, end_date (apply_set update d) = end_date d))
  /\ ((exists s, forall d, start_date (apply_set update d) = s)
      \/ (forall d, start_date (apply_set update d) = start_date d)).
Proof.
  unfold apply_set. induction update as [|e u IH]; simpl.
  - repeat split; right; reflexivity.
  - destruct IH as (Hm & He & Hs). split; [|split].
    + destruct Hm as [[m Hm]|Hm]; [left; exists m; intros x; apply Hm|].
      destruct e as [m0|e0|s0].
      * left. exists (Some m0). intros x. rewrite Hm. reflexivity.
      * right. intros x. rewrite Hm. reflexivity.
      * right. intros x. rewrite Hm. reflexivity.
    + destruct He as [[y He]|He]; [left; exists y; intros x; apply He|].
      destruct e as [m0|e0|s0].
      * right. intros x. rewrite He. reflexivity.
      * left. exists (Some e0). intros x. rewrite He. reflexivity.
      * right. intros x. rewrite He. reflexivity.
    + destruct Hs as [[y Hs]|Hs]; [left; exists y; intros x; apply Hs|].
      destruct e as [m0|e0|s0].
      * right. intros x. rewrite Hs. reflexivity.
      * right. intros x. rewrite Hs. reflexivity.
      * left. exists s0. intros x. rewrite Hs. reflexivity.
Qed.

Lemma document_eq (a b : document) :
  _id a = _id b -> message a = message b -> start_date a = start_date b ->
  end_date a = end_date b -> created_by a = created_by b ->
  created_at a = created_at b -> a = b.
Proof. destruct a, b; simpl; intros; subst; reflexivity. Qed.

Lemma apply_set_idempotent (update : list set_entry) (d : document) :
  apply_set update (apply_set update d) = apply_set update d.
Proof.
  destruct (apply_set_settled update) as (Hm & He & Hs).
  destruct (apply_set_frame update (apply_set update d)) as (H1 & H2 & H3).
  apply document_eq; try assumption.
  - destruct Hm as [[m Hm]|Hm]; [rewrite !Hm; reflexivity | apply Hm].
  - destruct Hs as [[s Hs]|Hs]; [rewrite !Hs; reflexivity | apply Hs].
  - destruct He as [[e He]|He]; [rewrite !He; reflexivity | apply He].
Qed.

Lemma update_one_idempotent (oid : N) (update : list set_entry) (c : list document) :
  update_one oid update (snd (update_one oid update c)) = update_one oid update c.
Proof.
  induction c as [|x c IH]; simpl; [reflexivity|].
  destruct (has_id oid x) eqn:E; simpl.
  - rewrite has_id_apply_set, E, apply_set_idempotent. reflexivity.
  - destruct (update_one oid update c) as [n c'']. simpl in *.
    rewrite E, IH. reflexivity.
Qed.

(** X12. Update is idempotent: repeating an update call on the database the
    first call left gives the same answer and leaves that database as it
    is. *)
Theorem update_idempotent (announcement_id : string)
      (msg end_s start_s : option string) (teacher_username : string) (db : database) :
  update_announcement announcement_id msg end_s start_s teacher_username
    (snd (update_announcement announcement_id msg end_s start_s teacher_username db))
  = update_announcement announcement_id msg end_s start_s teacher_username db.
Proof.
  rewrite (update_announcement_outcome _ _ _ _ _ db).
  destruct (find_teacher teacher_username db) as [t|] eqn:Et;
    [|simpl; rewrite update_announcement_outcome, Et; reflexivity].
  destruct (ObjectId announcement_id) as [oid|] eqn:Eid;
    [|simpl; rewrite update_announcement_outcome, Et, Eid; reflexivity].
  destruct (build_update msg end_s start_s) as [[|e u]|c d] eqn:Eu;
    try (simpl; rewrite update_announcement_outcome, Et, Eid, Eu; reflexivity).
  destruct (find_one oid (announcements_collection db)) as [doc|] eqn:Ef;
    [|simpl; rewrite update_announcement_outcome, Et, Eid, Eu, Ef; reflexivity].
  cbn [snd]. rewrite update_announcement_outcome, find_teacher_with_announcements,
               Et, Eid, Eu.
  change (announcements_collection
            (with_announcements db
               (snd (update_one oid (e :: u) (announcements_collection db)))))
    with (snd (update_one oid (e :: u) (announcements_collection db))).
  destruct (update_one_found oid (e :: u) _ _ Ef) as (_ & H2 & _).
  rewrite H2, apply_set_idempotent, update_one_idempotent. reflexivity.
Qed.

End Update.


(** ** Creating, and what every endpoint keeps *)

Section Invariants.
Context {L : Library}.

(** [create_announcement] as a decision table. *)
Lemma create_announcement_outcome (msg end_s : string) (start_s : option string)
      (teacher_username : string) (now : datetime) (db : database) :
  create_announcement msg end_s start_s teacher_username now db
  = match find_teacher teacher_username db with
    | None => (HTTPException 401 "Invalid teacher credentials", db)
    | Some _ =>
        match parse_date end_s "Invalid end_date format" with
        | HTTPException c d => (HTTPException c d, db)
        | OK e =>
            let inserted sd :=
              let doc := mkDoc (Some (next_oid db)) (Some msg) sd (Some e)
                               (Some teacher_username) (Some now) in
              (OK (_serialize doc),
               mkDb (announcements_collection db ++ [doc]) (teachers_collection db)
                    (N.succ (next_oid db))) in
            match start_s with
            | Some s =>
                if s =? "" then inserted None
                else match parse_date s "Invalid start_date format" with
                     | OK dt => inserted (Some dt)
                     | HTTPException c d => (HTTPException c d, db)
                     end
            | None => inserted None
            end
        end
    end.
Proof.
  unfold create_announcement.
  destruct (find_teacher teacher_username db) as [t|]; [|reflexivity].
  destruct (parse_date end_s "Invalid end_date format") as [e|c d]; simpl;
    [|reflexivity].
  destruct start_s as [s|]; simpl; [|reflexivity].
  destruct (s =? ""); simpl; [reflexivity|].
  destruct (parse_date s "Invalid start_date format"); reflexivity.
Qed.

Lemma parse_date_parses (s detail : string) :
  parses s = match parse_date s detail with OK _ => true | HTTPException _ _ => false end.
Proof.
  unfold parses, parse_date.
  destruct (fromisoformat s); [reflexivity|].
  destruct (fromisoformat (s ++ "T00:00:00")); reflexivity.
Qed.

(** X15. Every operation is all or nothing: a create, update or delete call
    that fails, with whatever error, leaves the database exactly as it
    was. *)
Theorem failure_changes_nothing (teacher_username : string) (db db' : database)
      (c : nat) (d : string) :
  (forall msg end_s start_s now,
      create_announcement msg end_s start_s teacher_username now db
      = (HTTPException c d, db') -> db' = db)
  /\ (forall announcement_id msg end_s start_s,
         update_announcement announcement_id msg end_s start_s teacher_username db
         = (HTTPException c d, db') -> db' = db)
  /\ (forall announcement_id,
         delete_announcement announcement_id teacher_username db
         = (HTTPException c d, db') -> db' = db).
Proof.
  split; [|split].
  - intros msg end_s start_s now. apply create_error_db.
  - intros announcement_id msg end_s start_s. rewrite update_announcement_outcome.
    destruct (find_teacher teacher_username db) as [t|]; [|intros H; congruence].
    destruct (ObjectId announcement_id) as [oid|]; [|intros H; congruence].
    destruct (build_update msg end_s start_s) as [[|e u]|c0 d0];
      try (intros H; congruence).
    destruct (find_one oid (announcements_collection db)); intros H;
      [discriminate | congruence].
  - intros announcement_id. rewrite delete_announcement_outcome.
    destruct (find_teacher teacher_username db) as [t|]; [|intros H; congruence].
    destruct (ObjectId announcement_id) as [oid|]; [|intros H; congruence].
    destruct (find_one oid (announcements_collection db)); intros H;
      [discriminate | congruence].
Qed.

(** X16. No endpoint writes to the teacher collection, and the id generator
    never goes back: create advances it by one when it succeeds, update
    and delete leave it alone. *)
Theorem teachers_untouched (teacher_username : string) (db : database) :
  (forall msg end_s start_s now,
      let r := create_announcement msg end_s start_s teacher_username now db in
      teachers_collection (snd r) = teachers_collection db
      /\ next_oid (snd r)
         = match fst r with
           | OK _ => N.succ (next_oid db)
           | HTTPException _ _ => next_oid db
           end)
  /\ (forall announcement_id msg end_s start_s,
         let r := update_announcement announcement_id msg end_s start_s
                                      teacher_username db in
         teachers_collection (snd r) = teachers_collection db
         /\ next_oid (snd r) = next_oid db)
  /\ (forall announcement_id,
         let r := delete_announcement announcement_id teacher_username db in
         teachers_collection (snd r) = teachers_collection db
         /\ next_oid (snd r) = next_oid db).
Proof.
  split; [|split].
  - intros msg end_s start_s now r. subst r. rewrite create_announcement_outcome.
    destruct (find_teacher teacher_username db) as [t|]; [|split; reflexivity].
    destruct (parse_date end_s "Invalid end_date format"); [|split; reflexivity].
    destruct start_s as [s|]; [|split; reflexivity].
    destruct (s =? ""); [split; reflexivity|].
    destruct (parse_date s "Invalid start_date format"); split; reflexivity.
  - intros announcement_id msg end_s start_s r. subst r.
    rewrite update_announcement_outcome.
    destruct (find_teacher teacher_username db) as [t|]; [|split; reflexivity].
    destruct (ObjectId announcement_id) as [oid|]; [|split; reflexivity].
    destruct (build_update msg end_s start_s) as [[|e u]|c0 d0];
      try (split; reflexivity).
    destruct (find_one oid (announcements_collection db)); split; reflexivity.
  - intros announcement_id r. subst r. rewrite delete_announcement_outcome.
    destruct (find_teacher teacher_username db) as [t|]; [|split; reflexivity].
    destruct (ObjectId announcement_id) as [oid|]; [|split; reflexivity].
    destruct (find_one oid (announcements_collection db)); split; reflexivity.
Qed.

Lemma apply_set_has_end_date (update : list set_entry) (d : document) :
  has_end_date d = true -> has_end_date (apply_set update d) = true.
Proof.
  unfold apply_set. revert d.
  induction update as [|e u IH]; intros x Hx; simpl; [exact Hx|].
  apply IH. destruct e as [m0|e0|s0]; try exact Hx. reflexivity.
Qed.

(** X17. A stored announcement always has an end date: when every stored
    document has an [end_date], this is still so after a create, an update
    or a delete call, whatever its arguments and its outcome. *)
Theorem end_date_present_preserved (teacher_username : string) (db : database) :
  end_dates_present db ->
  (forall msg end_s start_s now,
      end_dates_present
        (snd (create_announcement msg end_s start_s teacher_username now db)))
  /\ (forall announcement_id msg end_s start_s,
         end_dates_present
           (snd (update_announcement announcement_id msg end_s start_s
                                     teacher_username db)))
  /\ (forall announcement_id,
         end_dates_present
           (snd (delete_announcement announcement_id teacher_username db))).
Proof.
  intros Hinv. split; [|split].
  - intros msg end_s start_s now.
    destruct (create_announcement msg end_s start_s teacher_username now db)
      as [[v|c d] db'] eqn:E.
    + destruct (create_inv _ _ _ _ _ _ _ _ E) as (e & s & _ & _ & _ & _ & ->).
      unfold end_dates_present in *. simpl.
      rewrite forallb_app, Hinv. reflexivity.
    + rewrite (create_error_db _ _ _ _ _ _ _ _ _ E). exact Hinv.
  - intros announcement_id msg end_s start_s. rewrite update_announcement_outcome.
    destruct (find_teacher teacher_username db) as [t|]; [|exact Hinv].
    destruct (ObjectId announcement_id) as [oid|]; [|exact Hinv].
    destruct (build_update msg end_s start_s) as [[|e u]|c0 d0]; try exact Hinv.
    destruct (find_one oid (announcements_collection db)); [|exact Hinv].
    unfold end_dates_present. cbn [snd announcements_collection with_announcements].
    apply update_one_forallb; [|exact Hinv].
    intros x. apply apply_set_has_end_date.
  - intros announcement_id. rewrite delete_announcement_outcome.
    destruct (find_teacher teacher_username db) as [t|]; [|exact Hinv].
    destruct (ObjectId announcement_id) as [oid|]; [|exact Hinv].
    destruct (find_one oid (announcements_collection db)); [|exact Hinv].
    unfold end_dates_present. cbn [snd announcements_collection with_announcements].
    apply delete_one_forallb. exact Hinv.
Qed.

Lemma issued_fresh (db : database) (d : document) :
  ids_issued db -> In d (announcements_collection db) ->
  has_id (next_oid db) d = false.
Proof.
  unfold ids_issued. intros H Hin. rewrite forallb_forall in H.
  specialize (H d Hin). unfold issued, has_id in *.
  destruct (_id d) as [o|]; [|reflexivity].
  apply N.ltb_lt in H. apply N.eqb_neq. lia.
Qed.

(** X18. Ids stay unique: when no two stored documents share an [_id] and
    every stored id was handed out by the generator, both are still so
    after a create, an update or a delete call, whatever its arguments and
    its outcome. *)
Theorem ids_unique_preserved (teacher_username : string) (db : database) :
  ids_issued db -> ids_unique db ->
  (forall msg end_s start_s now,
      let db' := snd (create_announcement msg end_s start_s teacher_username now db) in
      ids_issued db' /\ ids_unique db')
  /\ (forall announcement_id msg end_s start_s,
         let db' := snd (update_announcement announcement_id msg end_s start_s
                                             teacher_username db) in
         ids_issued db' /\ ids_unique db')
  /\ (forall announcement_id,
         let db' := snd (delete_announcement announcement_id teacher_username db) in
         ids_issued db' /\ ids_unique db').
Proof.
  intros Hiss Hun.
  destruct (ids_issued_preserved teacher_username db Hiss) as (Ic & Iu & Id).
  split; [|split].
  - intros msg end_s start_s now db'. split; [apply Ic|]. subst db'.
    destruct (create_announcement msg end_s start_s teacher_username now db)
      as [[v|c d] db'] eqn:E.
    + destruct (create_inv _ _ _ _ _ _ _ _ E) as (e & s & _ & _ & _ & _ & ->).
      unfold ids_unique in *. simpl. rewrite map_app. simpl.
      apply Permutation_NoDup with (l := Some (next_oid db)
                                          :: map _id (announcements_collection db)).
      * apply Permutation_cons_append.
      * constructor; [|exact Hun].
        intros Hin. apply in_map_iff in Hin. destruct Hin as (x & Hx & Hin).
        pose proof (issued_fresh db x Hiss Hin) as Hf.
        unfold has_id in Hf. rewrite Hx, N.eqb_refl in Hf. discriminate.
    + rewrite (create_error_db _ _ _ _ _ _ _ _ _ E). exact Hun.
  - intros announcement_id msg end_s start_s db'. split; [apply Iu|]. subst db'.
    unfold ids_unique.
    destruct (update_announcement_maps announcement_id msg end_s start_s
                                       teacher_username db) as [-> _].
    exact Hun.
  - intros announcement_id db'. split; [apply Id|]. subst db'.
    rewrite delete_announcement_outcome.
    destruct (find_teacher teacher_username db) as [t|]; [|exact Hun].
    destruct (ObjectId announcement_id) as [oid|]; [|exact Hun].
    destruct (find_one oid (announcements_collection db)) as [doc|] eqn:Ef;
      [|exact Hun].
    destruct (delete_one_split _ _ _ Ef) as (l1 & l2 & Hc & _ & Hd).
    unfold ids_unique in *. rewrite Hd. simpl. rewrite Hc in Hun.
    rewrite map_app in *. simpl in Hun. exact (NoDup_remove_1 _ _ _ Hun).
Qed.

End Invariants.


(** ** The id a create call returns *)

Section ReturnedId.
Context {L : Library}.

Lemma find_one_app_last (oid : N) (c : list document) (x : document) :
  (forall d, In d c -> has_id oid d = false) -> has_id oid x = true ->
  find_one oid (c ++ [x]) = Some x.
Proof.
  unfold find_one. intros Hc Hx. induction c as [|y c IH]; simpl.
  - rewrite Hx. reflexivity.
  - rewrite (Hc y (or_introl eq_refl)). apply IH.
    intros d Hd. apply Hc. right. exact Hd.
Qed.

Lemma delete_one_app_last (oid : N) (c : list document) (x : document) :
  (forall d, In d c -> has_id oid d = false) -> has_id oid x = true ->
  delete_one oid (c ++ [x]) = (1, c).
Proof.
  intros Hc Hx. induction c as [|y c IH]; simpl.
  - rewrite Hx. reflexivity.
  - rewrite (Hc y (or_introl eq_refl)), IH; [reflexivity|].
    intros d Hd. apply Hc. right. exact Hd.
Qed.

Lemma update_one_app_last (oid : N) (update : list set_entry)
      (c : list document) (x : document) :
  (forall d, In d c -> has_id oid d = false) -> has_id oid x = true ->
  update_one oid update (c ++ [x]) = (1, c ++ [apply_set update x]).
Proof.
  intros Hc Hx. induction c as [|y c IH]; simpl.
  - rewrite Hx. reflexivity.
  - rewrite (Hc y (or_introl eq_refl)), IH; [reflexivity|].
    intros d Hd. apply Hc. right. exact Hd.
Qed.

(** X19. Create, then delete by the returned id.  When the library reads
    the rendered id back, a delete call by a known teacher with the [id] of
    the view a create call has just returned succeeds and restores the
    announcements exactly as they were before the create; only the id
    generator has moved on, so the id is not handed out again. *)
Theorem create_then_delete (msg end_s : string) (start_s : option string)
      (teacher_username requester : string) (now : datetime)
      (db db' : database) (v : View.t) :
  ids_issued db ->
  ObjectId (str_of_oid (next_oid db)) = Some (next_oid db) ->
  create_announcement msg end_s start_s teacher_username now db = (OK v, db') ->
  In requester (teachers_collection db) ->
  delete_announcement (View.id v) requester db'
  = (OK "Announcement deleted",
     mkDb (announcements_collection db) (teachers_collection db)
          (N.succ (next_oid db))).
Proof.
  intros Hiss Hrt Hc Hr.
  destruct (create_inv _ _ _ _ _ _ _ _ Hc) as (e & s & _ & _ & _ & -> & ->).
  unfold delete_announcement. cbn [View.id _serialize _id].
  unfold find_teacher. cbn [teachers_collection announcements_collection].
  fold (find_teacher requester db). rewrite (find_teacher_known _ _ Hr), Hrt.
  rewrite delete_one_app_last.
  - reflexivity.
  - intros d Hd. exact (issued_fresh db d Hiss Hd).
  - unfold has_id. simpl. apply N.eqb_refl.
Qed.

End ReturnedId.


(** ** The endpoints on the sample database *)

Section EndpointsOnSample.
Import PyLibrary.

Lemma sample_ids_unique : ids_unique Sample.db.
Proof.
  unfold ids_unique. simpl. repeat constructor; simpl; intuition discriminate.
Qed.

(** A delete call by a user who is no teacher, on a stored id. *)
Lemma unknown_teacher_rejected_witness :
  ~ In "nobody" (teachers_collection Sample.db)
  /\ delete_announcement "000000000000000000000002" "nobody" Sample.db
     = (HTTPException 401 "Invalid teacher credentials", Sample.db).
Proof.
  assert (~ In "nobody" (teachers_collection Sample.db)) as Hn
      by (simpl; intuition discriminate).
  split; [exact Hn|].
  exact (proj2 (proj2 (unknown_teacher_rejected (L := py) "nobody" Sample.db Hn))
               "000000000000000000000002").
Defined.

(** The announcement of one teacher, deleted by either teacher. *)
Lemma any_teacher_may_write_witness :
  In "mchen" (teachers_collection Sample.db)
  /\ In "mrodriguez" (teachers_collection Sample.db)
  /\ delete_announcement "000000000000000000000002" "mchen" Sample.db
     = delete_announcement "000000000000000000000002" "mrodriguez" Sample.db.
Proof.
  assert (In "mrodriguez" (teachers_collection Sample.db)) as Hr by (simpl; tauto).
  split; [exact sample_teacher|]. split; [exact Hr|].
  exact (proj2 (proj2 (any_teacher_may_write (L := py) "mchen" "mrodriguez" Sample.db
                                             sample_teacher Hr))
               "000000000000000000000002").
Defined.

(** The full listing of the sample database has three entries. *)
Lemma list_all_complete_witness :
  In "mchen" (teachers_collection Sample.db)
  /\ exists views,
      get_all_announcements "mchen" Sample.db = OK views /\ length views = 3.
Proof.
  split; [exact sample_teacher|].
  destruct (list_all_complete (L := py) "mchen" Sample.db sample_teacher)
    as (views & H1 & _ & H3 & _).
  exists views. split; [exact H1 | exact H3].
Defined.

(** The active listing of the sample database against its full listing. *)
Lemma active_within_all_witness :
  exists views,
    get_all_announcements "mchen" Sample.db = OK views
    /\ incl (get_active_announcements Sample.now Sample.db) views.
Proof.
  eexists. split; [reflexivity|].
  exact (proj1 (active_within_all (L := py) Sample.now "mchen" Sample.db _ eq_refl)).
Defined.

(** Deleting the autumn term announcement. *)
Lemma delete_removes_one_witness :
  In "mchen" (teachers_collection Sample.db)
  /\ ObjectId "000000000000000000000002" = Some 2%N
  /\ find_one 2 (announcements_collection Sample.db) = Some Sample.autumn_term
  /\ exists l1 l2,
      announcements_collection Sample.db = l1 ++ Sample.autumn_term :: l2
      /\ (forall d, In d l1 -> _id d <> Some 2%N)
      /\ delete_announcement "000000000000000000000002" "mchen" Sample.db
         = (OK "Announcement deleted",
            mkDb (l1 ++ l2) (teachers_collection Sample.db) (next_oid Sample.db)).
Proof.
  split; [exact sample_teacher|]. split; [reflexivity|]. split; [reflexivity|].
  exact (delete_removes_one (L := py) "000000000000000000000002" "mchen" Sample.db 2
                            Sample.autumn_term sample_teacher eq_refl eq_refl).
Defined.

Lemma delete_succeeds_iff_witness :
  exists body db',
    delete_announcement "000000000000000000000002" "mchen" Sample.db = (OK body, db').
Proof.
  apply (proj2 (delete_succeeds_iff (L := py) "000000000000000000000002" "mchen"
                                    Sample.db)).
  split; [exact sample_teacher|].
  exists 2%N, Sample.autumn_term. split; reflexivity.
Defined.

(** Deleting the autumn term announcement twice. *)
Lemma delete_then_not_found_witness :
  In "mchen" (teachers_collection Sample.db)
  /\ ObjectId "000000000000000000000002" = Some 2%N
  /\ ids_unique Sample.db
  /\ delete_announcement
       "000000000000000000000002" "mchen"
       (snd (delete_announcement "000000000000000000000002" "mchen" Sample.db))
     = (HTTPException 404 "Announcement not found",
        snd (delete_announcement "000000000000000000000002" "mchen" Sample.db)).
Proof.
  split; [exact sample_teacher|]. split; [reflexivity|].
  split; [exact sample_ids_unique|].
  exact (proj2 (delete_then_not_found (L := py) "000000000000000000000002" "mchen"
                                      Sample.db 2 sample_teacher eq_refl
                                      sample_ids_unique)).
Defined.

(** The full listing before and after deleting the autumn term
    announcement. *)
Lemma delete_then_list_all_witness :
  NoDup (map view_id (announcements_collection Sample.db))
  /\ exists views db' views',
      get_all_announcements "mrodriguez" Sample.db = OK views
      /\ delete_announcement "000000000000000000000002" "mchen" Sample.db
         = (OK "Announcement deleted", db')
      /\ get_all_announcements "mrodriguez" db' = OK views'
      /\ S (length views') = length views.
Proof.
  split; [exact sample_ids_distinct|].
  destruct (delete_then_list_all (L := py) "000000000000000000000002" "mchen"
                                 "mrodriguez" Sample.db 2 Sample.autumn_term _
                                 sample_teacher eq_refl eq_refl
                                 sample_ids_distinct eq_refl)
    as (db' & views' & H1 & H2 & _ & H4).
  eexists. exists db', views'. split; [reflexivity|].
  split; [exact H1|]. split; [exact H2 | exact H4].
Defined.

Lemma failure_changes_nothing_witness :
  fst (update_announcement "000000000000000000000002" None (Some "someday") None
                           "mchen" Sample.db)
  = HTTPException 400 "Invalid end_date format"
  /\ snd (update_announcement "000000000000000000000002" None (Some "someday") None
                              "mchen" Sample.db) = Sample.db.
Proof.
  split; [reflexivity|].
  exact (proj1 (proj2 (failure_changes_nothing
                         (L := py) "mchen" Sample.db
                         (snd (update_announcement "000000000000000000000002" None
                                                   (Some "someday") None
                                                   "mchen" Sample.db))
                         400 "Invalid end_date format"))
               "000000000000000000000002" None (Some "someday") None eq_refl).
Defined.

Lemma end_date_present_preserved_witness :
  end_dates_present Sample.db
  /\ end_dates_present
       (snd (update_announcement "000000000000000000000002" None
                                 (Some "2026-02-01") (Some "") "mchen" Sample.db)).
Proof.
  assert (end_dates_present Sample.db) as Hinv by reflexivity.
  split; [exact Hinv|].
  exact (proj1 (proj2 (end_date_present_preserved (L := py) "mchen" Sample.db Hinv))
               "000000000000000000000002" None (Some "2026-02-01") (Some "")).
Defined.

Lemma ids_unique_preserved_witness :
  ids_issued Sample.db
  /\ ids_unique Sample.db
  /\ ids_unique
       (snd (create_announcement "Sports day" "2099-12-31" None "mchen"
                                 Sample.now Sample.db)).
Proof.
  assert (ids_issued Sample.db) as Hiss by reflexivity.
  split; [exact Hiss|]. split; [exact sample_ids_unique|].
  exact (proj2 (proj1 (ids_unique_preserved (L := py) "mchen" Sample.db Hiss
                                            sample_ids_unique)
                      "Sports day" "2099-12-31" None Sample.now)).
Defined.

(** Create on the sample database, then delete by the id of the answer. *)
Lemma create_then_delete_witness :
  ids_issued Sample.db
  /\ ObjectId (str_of_oid (next_oid Sample.db)) = Some (next_oid Sample.db)
  /\ exists v db',
      create_announcement "Sports day" "2099-12-31" None "mchen" Sample.now Sample.db
      = (OK v, db')
      /\ delete_announcement (View.id v) "mrodriguez" db'
         = (OK "Announcement deleted",
            mkDb (announcements_collection Sample.db)
                 (teachers_collection Sample.db) 5).
Proof.
  assert (ids_issued Sample.db) as Hiss by reflexivity.
  split; [exact Hiss|]. split; [reflexivity|].
  eexists. eexists. split; [reflexivity|].
  apply (create_then_delete (L := py) "Sports day" "2099-12-31" None "mchen"
                            "mrodriguez" Sample.now Sample.db _ _ Hiss eq_refl eq_refl).
  simpl. tauto.
Defined.

End EndpointsOnSample.


(** ** The writing endpoints over a store that encodes its dates *)

Section EncodedStore.
Context {L : Library}.
Variable to_bson : datetime -> option datetime.

(** When the store keeps every date as given, the endpoints over it are
    the endpoints of the first part. *)
Lemma encode_update_as_given (update : list set_entry) :
  (forall d, to_bson d = Some d) -> encode_update to_bson update = Some update.
Proof.
  intros Hk. induction update as [|e u IH]; simpl; [reflexivity|].
  rewrite IH. destruct e as [m|d|[d|]]; simpl; rewrite ?Hk; reflexivity.
Qed.

Lemma create_announcement_bson_as_given (msg end_s : string) (start_s : option string)
      (teacher_username : string) (now : datetime) (db : database) :
  (forall d, to_bson d = Some d) ->
  create_announcement_bson to_bson msg end_s start_s teacher_username now db
  = create_announcement msg end_s start_s teacher_username now db.
Proof.
  intros Hk. unfold create_announcement_bson, create_announcement.
  destruct (find_teacher teacher_username db) as [t|]; [|reflexivity].
  destruct (parse_date end_s "Invalid end_date format") as [e|]; simpl; [|reflexivity].
  destruct start_s as [ss|]; simpl.
  - destruct (negb (ss =? "")); simpl.
    + destruct (parse_date ss "Invalid start_date format") as [dt|]; simpl;
        [|reflexivity].
      unfold insert_one_bson, encode_document, encode_date. simpl.
      rewrite !Hk. reflexivity.
    + unfold insert_one_bson, encode_document, encode_date. simpl.
      rewrite !Hk. reflexivity.
  - unfold insert_one_bson, encode_document, encode_date. simpl.
    rewrite !Hk. reflexivity.
Qed.

Lemma update_announcement_bson_as_given (announcement_id : string)
      (msg end_s start_s : option string) (teacher_username : string) (db : database) :
  (forall d, to_bson d = Some d) ->
  update_announcement_bson to_bson announcement_id msg end_s start_s teacher_username db
  = update_announcement announcement_id msg end_s start_s teacher_username db.
Proof.
  intros Hk. unfold update_announcement_bson, update_announcement, update_one_bson.
  destruct (find_teacher teacher_username db); [|reflexivity].
  destruct (ObjectId announcement_id) as [oid|]; [|reflexivity].
  destruct (build_update msg end_s start_s) as [[|e u]|c d]; try reflexivity.
  rewrite (encode_update_as_given (e :: u) Hk).
  destruct (update_one oid (e :: u) (announcements_collection db)) as [n c].
  reflexivity.
Qed.

(** [create_announcement_bson] as a decision table. *)
Lemma create_announcement_bson_outcome (msg end_s : string) (start_s : option string)
      (teacher_username : string) (now : datetime) (db : database) :
  create_announcement_bson to_bson msg end_s start_s teacher_username now db
  = match find_teacher teacher_username db with
    | None => (HTTPException 401 "Invalid teacher credentials", db)
    | Some _ =>
        match parse_date end_s "Invalid end_date format" with
        | HTTPException c d => (HTTPException c d, db)
        | OK e =>
            let inserted sd :=
              match to_bson e, encode_date to_bson sd, to_bson now with
              | Some e', Some sd', Some c' =>
                  (OK (_serialize (mkDoc (Some (next_oid db)) (Some msg) sd (Some e)
                                         (Some teacher_username) (Some now))),
                   mkDb (announcements_collection db
                         ++ [mkDoc (Some (next_oid db)) (Some msg) sd' (Some e')
                                   (Some teacher_username) (Some c')])
                        (teachers_collection db) (N.succ (next_oid db)))
              | _, _, _ => (HTTPException 500 "Internal Server Error", db)
              end in
            match start_s with
            | Some s =>
                if s =? "" then inserted None
                else match parse_date s "Invalid start_date format" with
                     | OK dt => inserted (Some dt)
                     | HTTPException c d => (HTTPException c d, db)
                     end
            | None => inserted None
            end
        end
    end.
Proof.
  unfold create_announcement_bson, insert_one_bson, encode_document.
  destruct (find_teacher teacher_username db) as [t|]; [|reflexivity].
  destruct (parse_date end_s "Invalid end_date format") as [e|c d]; simpl;
    [|reflexivity].
  destruct start_s as [s|]; simpl.
  - destruct (s =? ""); simpl.
    + destruct (to_bson e), (to_bson now); reflexivity.
    + destruct (parse_date s "Invalid start_date format") as [dt|]; simpl;
        [|reflexivity].
      destruct (to_bson dt), (to_bson e), (to_bson now); reflexivity.
  - destruct (to_bson e), (to_bson now); reflexivity.
Qed.

(** What a successful [create_announcement_bson] did: the view answered is
    the view of the local document, the document stored is its encoding. *)
Lemma create_bson_inv (msg end_s : string) (start_s : option string)
      (teacher_username : string) (now : datetime) (db db' : database) (v : View.t) :
  create_announcement_bson to_bson msg end_s start_s teacher_username now db
  = (OK v, db') ->
  exists (e e' c' : datetime) (s s' : option datetime),
    In teacher_username (teachers_collection db)
    /\ parse_date end_s "Invalid end_date format" = OK e
    /\ ((truthy start_s = false /\ s = None)
        \/ exists str dt, start_s = Some str /\ str <> ""
                          /\ parse_date str "Invalid start_date format" = OK dt
                          /\ s = Some dt)
    /\ to_bson e = Some e'
    /\ encode_date to_bson s = Some s'
    /\ to_bson now = Some c'
    /\ v = _serialize (mkDoc (Some (next_oid db)) (Some msg) s (Some e)
                             (Some teacher_username) (Some now))
    /\ db' = mkDb (announcements_collection db
                   ++ [mkDoc (Some (next_oid db)) (Some msg) s' (Some e')
                             (Some teacher_username) (Some c')])
                  (teachers_collection db) (N.succ (next_oid db)).
Proof.
  rewrite create_announcement_bson_outcome.
  destruct (find_teacher teacher_username db) as [t|] eqn:Et; [|discriminate].
  pose proof (find_teacher_Some _ _ _ Et) as Ht.
  destruct (parse_date end_s "Invalid end_date format") as [e|c d] eqn:Ee;
    [|discriminate].
  cbv zeta.
  assert (forall s : option datetime,
             ((truthy start_s = false /\ s = None)
              \/ exists str dt, start_s = Some str /\ str <> ""
                                /\ parse_date str "Invalid start_date format" = OK dt
                                /\ s = Some dt) ->
             match to_bson e, encode_date to_bson s, to_bson now with
             | Some e', Some sd', Some c' =>
                 (OK (_serialize (mkDoc (Some (next_oid db)) (Some msg) s (Some e)
                                        (Some teacher_username) (Some now))),
                  mkDb (announcements_collection db
                        ++ [mkDoc (Some (next_oid db)) (Some msg) sd' (Some e')
                                  (Some teacher_username) (Some c')])
                       (teachers_collection db) (N.succ (next_oid db)))
             | _, _, _ => (HTTPException 500 "Internal Server Error", db)
             end = (OK v, db') ->
             exists (e0 e' c' : datetime) (s0 s' : option datetime),
               In teacher_username (teachers_collection db)
               /\ OK e = OK e0
               /\ ((truthy start_s = false /\ s0 = None)
                   \/ exists str dt, start_s = Some str /\ str <> ""
                                     /\ parse_date str "Invalid start_date format" = OK dt
                                     /\ s0 = Some dt)
               /\ to_bson e0 = Some e'
               /\ encode_date to_bson s0 = Some s'
               /\ to_bson now = Some c'
               /\ v = _serialize (mkDoc (Some (next_oid db)) (Some msg) s0 (Some e0)
                                        (Some teacher_username) (Some now))
               /\ db' = mkDb (announcements_collection db
                              ++ [mkDoc (Some (next_oid db)) (Some msg) s' (Some e')
                                        (Some teacher_username) (Some c')])
                             (teachers_collection db) (N.succ (next_oid db))) as Hins.
  { intros s Hs H.
    destruct (to_bson e) as [e'|] eqn:Ebe; [|discriminate].
    destruct (encode_date to_bson s) as [s'|] eqn:Ebs; [|discriminate].
    destruct (to_bson now) as [c'|] eqn:Ebc; [|discriminate].
    injection H as <- <-.
    exists e, e', c', s, s'. repeat split; assumption. }
  destruct start_s as [str|].
  - destruct (String.eqb_spec str "") as [->|Hne].
    + apply Hins. left. split; reflexivity.
    + destruct (parse_date str "Invalid start_date format") as [dt|c d] eqn:Es;
        [|discriminate].
      apply Hins. right. exists str, dt. repeat split; assumption.
  - apply Hins. left. split; reflexivity.
Qed.

(** C9, as the code has it.  After a successful create, a listing by any
    known teacher contains a view of the created record under the id the
    create call answered, an id no document had before and no other
    document has now.  The view answered and the view listed both show the
    message of the call and the creating teacher.  The view answered shows
    the parsed dates and the creation time of the call; the view listed
    shows them as the store keeps them.  When the store keeps these dates
    as given, the view listed is the view answered. *)
Theorem create_then_list_all_stored (msg end_s : string) (start_s : option string)
      (teacher_username requester : string) (now : datetime)
      (db db' : database) (v : View.t) :
  ids_issued db ->
  create_announcement_bson to_bson msg end_s start_s teacher_username now db
  = (OK v, db') ->
  In requester (teachers_collection db') ->
  exists (views : list View.t) (listed : View.t) (oid : N)
         (e e' c' : datetime) (s s' : option datetime),
    get_all_announcements requester db' = OK views
    /\ In listed views
    /\ View.id v = str_of_oid oid
    /\ View.id listed = str_of_oid oid
    /\ (forall d, In d (announcements_collection db) -> _id d <> Some oid)
    /\ length (filter (has_id oid) (announcements_collection db')) = 1
    /\ View.message v = Some msg
    /\ View.message listed = Some msg
    /\ View.created_by v = Some teacher_username
    /\ View.created_by listed = Some teacher_username
    /\ parse_date end_s "Invalid end_date format" = OK e
    /\ to_bson e = Some e'
    /\ View.end_date v = Some (isoformat e)
    /\ View.end_date listed = Some (isoformat e')
    /\ ((truthy start_s = false /\ s = None)
        \/ exists str dt, start_s = Some str /\ str <> ""
                          /\ parse_date str "Invalid start_date format" = OK dt
                          /\ s = Some dt)
    /\ encode_date to_bson s = Some s'
    /\ View.start_date v = option_map isoformat s
    /\ View.start_date listed = option_map isoformat s'
    /\ to_bson now = Some c'
    /\ View.created_at v = Some (isoformat now)
    /\ View.created_at listed = Some (isoformat c')
    /\ (e' = e -> s' = s -> c' = now -> listed = v /\ In v views).
Proof.
  intros Hwf Hc Hr.
  destruct (create_bson_inv _ _ _ _ _ _ _ _ Hc)
    as (e & e' & c' & s & s' & Ht & He & Hs & Hbe & Hbs & Hbc & Hv & Hdb).
  set (stored := mkDoc (Some (next_oid db)) (Some msg) s' (Some e')
                       (Some teacher_username) (Some c')) in *.
  assert (In stored (announcements_collection db')) as Hin
      by (rewrite Hdb; simpl; apply in_or_app; right; left; reflexivity).
  assert (In (_serialize stored)
             (map _serialize (sort_end_date (announcements_collection db')))) as Hl
      by (apply in_map, sort_end_date_In, Hin).
  exists (map _serialize (sort_end_date (announcements_collection db'))),
         (_serialize stored), (next_oid db), e, e', c', s, s'.
  split. { unfold get_all_announcements. rewrite (find_teacher_known _ _ Hr). reflexivity. }
  split; [exact Hl|].
  split; [rewrite Hv; reflexivity|]. split; [reflexivity|].
  split.
  { intros d Hd Heq. pose proof (issued_fresh db d Hwf Hd) as Hf.
    unfold has_id in Hf. rewrite Heq, N.eqb_refl in Hf. discriminate. }
  split.
  { rewrite Hdb. simpl. rewrite filter_app, (issued_filter_has_id db Hwf). simpl.
    unfold has_id. simpl. rewrite N.eqb_refl. reflexivity. }
  split; [rewrite Hv; reflexivity|]. split; [reflexivity|].
  split; [rewrite Hv; reflexivity|]. split; [reflexivity|].
  split; [exact He|]. split; [exact Hbe|].
  split; [rewrite Hv; reflexivity|]. split; [reflexivity|].
  split; [exact Hs|]. split; [exact Hbs|].
  split; [rewrite Hv; simpl; destruct s; reflexivity|].
  split; [simpl; destruct s'; reflexivity|].
  split; [exact Hbc|].
  split; [rewrite Hv; reflexivity|]. split; [reflexivity|].
  intros -> -> ->. assert (_serialize stored = v) as Heq by (rewrite Hv; reflexivity).
  split; [exact Heq | rewrite <- Heq; exact Hl].
Qed.

(** [update_announcement_bson] as a decision table. *)
Lemma update_announcement_bson_outcome (announcement_id : string)
      (msg end_s start_s : option string) (teacher_username : string) (db : database) :
  update_announcement_bson to_bson announcement_id msg end_s start_s teacher_username db
  = match find_teacher teacher_username db with
    | None => (HTTPException 401 "Invalid teacher credentials", db)
    | Some _ =>
        match ObjectId announcement_id with
        | None => (HTTPException 400 "Invalid announcement id", db)
        | Some oid =>
            match build_update msg end_s start_s with
            | HTTPException c d => (HTTPException c d, db)
            | OK [] => (HTTPException 400 "No fields to update", db)
            | OK (e :: u) =>
                match encode_update to_bson (e :: u) with
                | None => (HTTPException 500 "Internal Server Error", db)
                | Some update' =>
                    match find_one oid (announcements_collection db) with
                    | None => (HTTPException 404 "Announcement not found", db)
                    | Some doc =>
                        (OK (_serialize (apply_set update' doc)),
                         with_announcements db
                           (snd (update_one oid update' (announcements_collection db))))
                    end
                end
            end
        end
    end.
Proof.
  unfold update_announcement_bson, update_one_bson.
  destruct (find_teacher teacher_username db) as [t|]; [|reflexivity].
  destruct (ObjectId announcement_id) as [oid|]; [|reflexivity].
  destruct (build_update msg end_s start_s) as [[|e u]|c d]; try reflexivity.
  destruct (encode_update to_bson (e :: u)) as [update'|]; [|reflexivity].
  destruct (find_one oid (announcements_collection db)) as [doc|] eqn:Ef.
  - destruct (update_one_found oid update' _ _ Ef) as (H1 & H2 & _).
    destruct (update_one oid update' (announcements_collection db)) as [n c].
    simpl in H1, H2. subst n. simpl. rewrite H2. reflexivity.
  - rewrite (update_one_missing _ _ _ Ef). simpl.
    rewrite with_announcements_same. reflexivity.
Qed.

Lemma storable_eq (s detail : string) :
  storable to_bson s
  = match parse_date s detail with
    | OK dt => match to_bson dt with Some _ => true | None => false end
    | HTTPException _ _ => false
    end.
Proof.
  unfold storable, parse_date.
  destruct (fromisoformat s); [reflexivity|].
  destruct (fromisoformat (s ++ "T00:00:00")); reflexivity.
Qed.

Lemma storable_parses (s : string) : storable to_bson s = true -> parses s = true.
Proof.
  rewrite (storable_eq s ""), (parse_date_parses s "").
  destruct (parse_date s ""); [reflexivity | discriminate].
Qed.

(** The encoded [update] dict, by the fields of the request: what it does
    to a document when every date can be encoded, and which date cannot be
    when it cannot be built. *)
Lemma build_update_encoded (msg end_s start_s : option string)
      (update : list set_entry) :
  build_update msg end_s start_s = OK update ->
  match encode_update to_bson update with
  | Some update' =>
      (forall str, end_s = Some str -> storable to_bson str = true)
      /\ (forall str, start_s = Some str -> str <> "" -> storable to_bson str = true)
      /\ (forall doc,
             message (apply_set update' doc)
             = match msg with Some m => Some m | None => message doc end
             /\ match end_s with
                | Some s =>
                    exists dt dt',
                      parse_date s "Invalid end_date format" = OK dt
                      /\ to_bson dt = Some dt'
                      /\ end_date (apply_set update' doc) = Some dt'
                | None => end_date (apply_set update' doc) = end_date doc
                end
             /\ match start_s with
                | Some s =>
                    if s =? "" then start_date (apply_set update' doc) = None
                    else exists dt dt',
                        parse_date s "Invalid start_date format" = OK dt
                        /\ to_bson dt = Some dt'
                        /\ start_date (apply_set update' doc) = Some dt'
                | None => start_date (apply_set update' doc) = start_date doc
                end)
  | None =>
      (exists str, end_s = Some str /\ storable to_bson str = false)
      \/ (exists str, start_s = Some str /\ str <> "" /\ storable to_bson str = false)
  end.
Proof.
  unfold build_update.
  destruct end_s as [es|]; simpl;
    [destruct (parse_date es "Invalid end_date format") as [e0|] eqn:Ee; simpl;
     [|discriminate]|];
    (destruct start_s as [ss|]; simpl;
     [destruct (String.eqb_spec ss "") as [->|Hne]; simpl;
      [|destruct (parse_date ss "Invalid start_date format") as [d0|] eqn:Es; simpl;
        [|discriminate]]|]);
    intros H; injection H as <-;
    try (pose proof (storable_eq es "Invalid end_date format") as Se;
         rewrite Ee in Se);
    try (pose proof (storable_eq ss "Invalid start_date format") as Ss;
         rewrite Es in Ss);
    try (destruct (to_bson e0) as [e0'|] eqn:Be);
    try (destruct (to_bson d0) as [d0'|] eqn:Bd);
    destruct msg as [m|]; simpl; rewrite ?Be, ?Bd; simpl;
    try (left; exists es; split; [reflexivity | exact Se]);
    try (right; exists ss; split; [reflexivity | split; [exact Hne | exact Ss]]);
    (split; [intros str Hstr; try discriminate; injection Hstr as <-; exact Se|]);
    (split; [intros str Hstr Hn; try discriminate; injection Hstr as <-;
             try exact Ss; exfalso; apply Hn; reflexivity|]);
    intros doc; repeat split; eauto;
    try (apply String.eqb_neq in Hne; rewrite Hne; eauto).
Qed.

(** X9. A partial update, over a store that encodes its dates.  For a
    known teacher, the id of a stored announcement, at least one field
    provided and every provided date parsing to a date the store can
    encode, update succeeds and answers the view of the document read back
    from the store: a provided message replaces the message, a provided end
    date replaces [end_date] by its parse as the store keeps it, a provided
    start date clears [start_date] when it is the empty string and replaces
    it by its parse as the store keeps it otherwise, and a field that is not
    provided keeps its value, as do [_id], [created_by] and [created_at].
    The announcements under other ids, their number, the teachers and the
    id generator are untouched. *)
Theorem update_bson_sets_provided_fields (announcement_id : string)
      (msg end_s start_s : option string) (teacher_username : string)
      (db : database) (oid : N) (doc : document) :
  In teacher_username (teachers_collection db) ->
  ObjectId announcement_id = Some oid ->
  find_one oid (announcements_collection db) = Some doc ->
  (msg <> None \/ end_s <> None \/ start_s <> None) ->
  (forall str, end_s = Some str -> storable to_bson str = true) ->
  (forall str, start_s = Some str -> str <> "" -> storable to_bson str = true) ->
  exists v doc' db',
    update_announcement_bson to_bson announcement_id msg end_s start_s
                             teacher_username db = (OK v, db')
    /\ find_one oid (announcements_collection db') = Some doc'
    /\ message doc' = match msg with Some m => Some m | None => message doc end
    /\ match end_s with
       | Some s => exists dt dt', parse_date s "Invalid end_date format" = OK dt
                                  /\ to_bson dt = Some dt'
                                  /\ end_date doc' = Some dt'
       | None => end_date doc' = end_date doc
       end
    /\ match start_s with
       | Some s =>
           if s =? "" then start_date doc' = None
           else exists dt dt', parse_date s "Invalid start_date format" = OK dt
                               /\ to_bson dt = Some dt'
                               /\ start_date doc' = Some dt'
       | None => start_date doc' = start_date doc
       end
    /\ _id doc' = Some oid
    /\ created_by doc' = created_by doc
    /\ created_at doc' = created_at doc
    /\ View.id v = str_of_oid oid
    /\ View.message v = message doc'
    /\ View.start_date v = option_map isoformat (start_date doc')
    /\ View.end_date v = option_map isoformat (end_date doc')
    /\ View.created_by v = created_by doc'
    /\ View.created_at v = option_map isoformat (created_at doc')
    /\ (forall o, o <> oid ->
          find_one o (announcements_collection db')
          = find_one o (announcements_collection db))
    /\ length (announcements_collection db') = length (announcements_collection db)
    /\ teachers_collection db' = teachers_collection db
    /\ next_oid db' = next_oid db.
Proof.
  intros Ht Hid Hf Hsome He Hs.
  destruct (build_update_nonempty msg end_s start_s Hsome) as (e & u & Hu).
  { intros str Hstr. apply storable_parses, He, Hstr. }
  { intros str Hstr Hne. apply storable_parses, Hs; assumption. }
  pose proof (build_update_encoded _ _ _ _ Hu) as Henc.
  rewrite update_announcement_bson_outcome, (find_teacher_known _ _ Ht), Hid, Hu.
  destruct (encode_update to_bson (e :: u)) as [update'|].
  2:{ exfalso. destruct Henc as [(str & Hstr & Hb)|(str & Hstr & Hne & Hb)].
      - rewrite (He str Hstr) in Hb. discriminate.
      - rewrite (Hs str Hstr Hne) in Hb. discriminate. }
  destruct Henc as (_ & _ & Hfields). rewrite Hf.
  destruct (update_one_found oid update' _ _ Hf) as (_ & H2 & H3 & H4).
  destruct (Hfields doc) as (Hm & Hed & Hsd).
  destruct (apply_set_frame update' doc) as (Hi & Hcb & Hca).
  destruct (find_one_has_id _ _ _ Hf) as [_ Hdoc].
  exists (_serialize (apply_set update' doc)), (apply_set update' doc).
  eexists. split; [reflexivity|]. simpl.
  split; [exact H2|]. split; [exact Hm|]. split; [exact Hed|]. split; [exact Hsd|].
  split; [rewrite Hi; exact Hdoc|]. split; [exact Hcb|]. split; [exact Hca|].
  split; [rewrite Hi, Hdoc; reflexivity|]. split; [reflexivity|].
  split; [destruct (start_date (apply_set update' doc)); reflexivity|].
  split; [destruct (end_date (apply_set update' doc)); reflexivity|].
  split; [reflexivity|].
  split; [destruct (created_at (apply_set update' doc)); reflexivity|].
  repeat split; assumption.
Qed.

(** X10. Over a store that encodes its dates, an update call succeeds
    exactly when the teacher is known, the id is well formed, a document is
    stored under it, at least one of the three fields is provided and every
    provided date parses to a date the store can encode (the empty start
    date needs neither). *)
Theorem update_bson_succeeds_iff (announcement_id : string)
      (msg end_s start_s : option string) (teacher_username : string) (db : database) :
  (exists v db',
      update_announcement_bson to_bson announcement_id msg end_s start_s
                               teacher_username db = (OK v, db'))
  <-> In teacher_username (teachers_collection db)
      /\ (exists oid doc,
             ObjectId announcement_id = Some oid
             /\ find_one oid (announcements_collection db) = Some doc)
      /\ (msg <> None \/ end_s <> None \/ start_s <> None)
      /\ (forall str, end_s = Some str -> storable to_bson str = true)
      /\ (forall str, start_s = Some str -> str <> "" -> storable to_bson str = true).
Proof.
  split.
  - rewrite update_announcement_bson_outcome. intros (v & db' & H).
    destruct (find_teacher teacher_username db) as [t|] eqn:Et; [|discriminate].
    split; [exact (find_teacher_Some _ _ _ Et)|].
    destruct (ObjectId announcement_id) as [oid|]; [|discriminate].
    destruct (build_update msg end_s start_s) as [[|e u]|c d] eqn:Eu;
      try discriminate.
    pose proof (build_update_encoded _ _ _ _ Eu) as Henc.
    destruct (encode_update to_bson (e :: u)) as [update'|]; [|discriminate].
    destruct (find_one oid (announcements_collection db)) as [doc|] eqn:Ef;
      [|discriminate].
    split; [exists oid, doc; split; [reflexivity | exact Ef]|].
    destruct Henc as (He & Hs & _). split; [|split; assumption].
    destruct msg as [m|]; [left; discriminate|].
    destruct end_s as [es|]; [right; left; discriminate|].
    destruct start_s as [ss|]; [right; right; discriminate|].
    discriminate Eu.
  - intros (Ht & (oid & doc & Hid & Hf) & Hsome & He & Hs).
    destruct (build_update_nonempty msg end_s start_s Hsome) as (e & u & Hu).
    { intros str Hstr. apply storable_parses, He, Hstr. }
    { intros str Hstr Hne. apply storable_parses, Hs; assumption. }
    pose proof (build_update_encoded _ _ _ _ Hu) as Henc.
    rewrite update_announcement_bson_outcome, (find_teacher_known _ _ Ht), Hid, Hu.
    destruct (encode_update to_bson (e :: u)) as [update'|].
    + rewrite Hf. eexists. eexists. reflexivity.
    + exfalso. destruct Henc as [(str & Hstr & Hb)|(str & Hstr & Hne & Hb)].
      * rewrite (He str Hstr) in Hb. discriminate.
      * rewrite (Hs str Hstr Hne) in Hb. discriminate.
Qed.

(** X13. Over a store that encodes its dates, a create call succeeds
    exactly when the teacher is known, the end date parses to a date the
    store can encode, the start date is absent, empty or parses to such a
    date, and the store can encode the creation time; the order of the two
    dates plays no part.  It fails on the start date, with "Invalid
    start_date format", exactly when the teacher is known, the end date
    parses and the start date is a non-empty string that does not parse. *)
Theorem create_bson_succeeds_iff (msg end_s : string) (start_s : option string)
      (teacher_username : string) (now : datetime) (db : database) :
  ((exists v db',
       create_announcement_bson to_bson msg end_s start_s teacher_username now db
       = (OK v, db'))
   <-> In teacher_username (teachers_collection db)
       /\ storable to_bson end_s = true
       /\ (truthy start_s = false
           \/ exists s, start_s = Some s /\ storable to_bson s = true)
       /\ to_bson now <> None)
  /\ (fst (create_announcement_bson to_bson msg end_s start_s teacher_username now db)
      = HTTPException 400 "Invalid start_date format"
      <-> In teacher_username (teachers_collection db)
          /\ parses end_s = true
          /\ exists s, start_s = Some s /\ s <> "" /\ parses s = false).
Proof.
  rewrite create_announcement_bson_outcome.
  rewrite (storable_eq end_s "Invalid end_date format").
  rewrite (parse_date_parses end_s "Invalid end_date format").
  split; split.
  - intros (v & db' & H).
    destruct (find_teacher teacher_username db) as [t|] eqn:Et; [|discriminate].
    split; [exact (find_teacher_Some _ _ _ Et)|].
    destruct (parse_date end_s "Invalid end_date format") as [e|c d]; [|discriminate].
    cbv zeta in H.
    destruct start_s as [s|].
    + destruct (String.eqb_spec s "") as [->|Hne].
      * simpl in H. destruct (to_bson e); [|discriminate].
        destruct (to_bson now); [|discriminate].
        split; [reflexivity|]. split; [left; reflexivity | discriminate].
      * destruct (parse_date s "Invalid start_date format") as [dt|] eqn:Es;
          [|discriminate].
        simpl in H. destruct (to_bson e); [|discriminate].
        destruct (to_bson dt) eqn:Bd; [|discriminate].
        destruct (to_bson now); [|discriminate].
        split; [reflexivity|]. split; [|discriminate].
        right. exists s. split; [reflexivity|].
        rewrite (storable_eq s "Invalid start_date format"), Es, Bd. reflexivity.
    + simpl in H. destruct (to_bson e); [|discriminate].
      destruct (to_bson now); [|discriminate].
      split; [reflexivity|]. split; [left; reflexivity | discriminate].
  - intros (Ht & He & Hs & Hn). rewrite (find_teacher_known _ _ Ht).
    destruct (parse_date end_s "Invalid end_date format") as [e|c d]; [|discriminate].
    destruct (to_bson e) as [e'|] eqn:Be; [|discriminate].
    destruct (to_bson now) as [c'|] eqn:Bn; [|exfalso; apply Hn; reflexivity].
    cbv zeta.
    destruct start_s as [s|]; [|simpl; eexists; eexists; reflexivity].
    destruct (String.eqb_spec s "") as [->|Hne];
      [simpl; eexists; eexists; reflexivity|].
    destruct Hs as [Hs | (s' & Hs' & Hp)].
    + simpl in Hs. apply String.eqb_neq in Hne. rewrite Hne in Hs. discriminate.
    + injection Hs' as <-.
      rewrite (storable_eq s "Invalid start_date format") in Hp.
      destruct (parse_date s "Invalid start_date format") as [dt|]; [|discriminate].
      simpl. destruct (to_bson dt); [|discriminate].
      eexists. eexists. reflexivity.
  - intros H.
    destruct (find_teacher teacher_username db) as [t|] eqn:Et; [|discriminate].
    split; [exact (find_teacher_Some _ _ _ Et)|].
    destruct (parse_date end_s "Invalid end_date format") as [e|c d] eqn:Ee.
    + split; [reflexivity|]. cbv zeta in H.
      destruct start_s as [s|].
      * destruct (String.eqb_spec s "") as [->|Hne].
        -- exfalso. simpl in H.
           destruct (to_bson e), (to_bson now); discriminate.
        -- exists s. split; [reflexivity|]. split; [exact Hne|].
           rewrite (parse_date_parses s "Invalid start_date format").
           destruct (parse_date s "Invalid start_date format") as [dt|];
             [|reflexivity].
           exfalso. simpl in H.
           destruct (to_bson e), (to_bson dt), (to_bson now); discriminate.
      * exfalso. simpl in H. destruct (to_bson e), (to_bson now); discriminate.
    + exfalso. apply parse_date_error in Ee. destruct Ee as (_ & _ & -> & ->).
      discriminate.
  - intros (Ht & He & s & -> & Hne & Hp). rewrite (find_teacher_known _ _ Ht).
    destruct (parse_date end_s "Invalid end_date format") as [e|c d]; [|discriminate].
    apply String.eqb_neq in Hne. rewrite Hne.
    rewrite (parse_date_parses s "Invalid start_date format") in Hp.
    destruct (parse_date s "Invalid start_date format") as [dt|c d] eqn:Es;
      [discriminate|].
    apply parse_date_error in Es. destruct Es as (_ & _ & -> & ->). reflexivity.
Qed.

(** X14. Over a store that encodes its dates the endpoints fail with the
    three statuses of the error taxonomy, or with 500 when the store
    raises: the full listing only with 401, create with 401, 400 or 500,
    update with 401, 400, 404 or 500, delete with 401, 400 or 404.  A
    create or update call fails with 500 only when a date it writes cannot
    be encoded; in particular update's read-back after a match always
    finds the document. *)
Theorem failure_status_codes_bson (teacher_username : string) (db db' : database)
      (c : nat) (d : string) :
  (get_all_announcements teacher_username db = HTTPException c d -> c = 401)
  /\ (forall msg end_s start_s now,
         create_announcement_bson to_bson msg end_s start_s teacher_username now db
         = (HTTPException c d, db') ->
         c = 401 \/ c = 400
         \/ (c = 500
             /\ (storable to_bson end_s = false
                 \/ (exists s, start_s = Some s /\ s <> ""
                               /\ storable to_bson s = false)
                 \/ to_bson now = None)))
  /\ (forall announcement_id msg end_s start_s,
         update_announcement_bson to_bson announcement_id msg end_s start_s
                                  teacher_username db
         = (HTTPException c d, db') ->
         c = 401 \/ c = 400 \/ c = 404
         \/ (c = 500
             /\ ((exists s, end_s = Some s /\ storable to_bson s = false)
                 \/ (exists s, start_s = Some s /\ s <> ""
                               /\ storable to_bson s = false))))
  /\ (forall announcement_id,
         delete_announcement announcement_id teacher_username db
         = (HTTPException c d, db') -> c = 401 \/ c = 400 \/ c = 404).
Proof.
  split; [|split; [|split]].
  - unfold get_all_announcements.
    destruct (find_teacher teacher_username db); intros H; [discriminate|].
    injection H as <- _. reflexivity.
  - intros msg end_s start_s now. rewrite create_announcement_bson_outcome.
    rewrite (storable_eq end_s "Invalid end_date format").
    destruct (find_teacher teacher_username db) as [t|];
      [|intros H; injection H as <- _ _; left; reflexivity].
    destruct (parse_date end_s "Invalid end_date format") as [e|c0 d0] eqn:Ee.
    2:{ intros H. injection H as <- _ _. right. left.
        exact (parse_date_status _ _ _ _ Ee). }
    cbv zeta.
    assert (forall sd : option datetime,
               (sd = None
                \/ exists s dt, start_s = Some s /\ s <> ""
                                /\ parse_date s "Invalid start_date format" = OK dt
                                /\ sd = Some dt) ->
               match to_bson e, encode_date to_bson sd, to_bson now with
               | Some e', Some sd', Some c' =>
                   (OK (_serialize (mkDoc (Some (next_oid db)) (Some msg) sd (Some e)
                                          (Some teacher_username) (Some now))),
                    mkDb (announcements_collection db
                          ++ [mkDoc (Some (next_oid db)) (Some msg) sd' (Some e')
                                    (Some teacher_username) (Some c')])
                         (teachers_collection db) (N.succ (next_oid db)))
               | _, _, _ => (HTTPException 500 "Internal Server Error", db)
               end = (HTTPException c d, db') ->
               c = 401 \/ c = 400
               \/ (c = 500
                   /\ (match to_bson e with Some _ => true | None => false end = false
                       \/ (exists s, start_s = Some s /\ s <> ""
                                     /\ storable to_bson s = false)
                       \/ to_bson now = None))) as Hins.
    { intros sd Hsd H. right. right.
      destruct (to_bson e) as [e'|].
      2:{ injection H as <- _ _. split; [reflexivity | left; reflexivity]. }
      destruct (to_bson now) as [c'|].
      2:{ destruct (encode_date to_bson sd); injection H as <- _ _;
          (split; [reflexivity | right; right; reflexivity]). }
      destruct sd as [dt|]; simpl in H; [|discriminate].
      destruct (to_bson dt) eqn:Bd; [discriminate|].
      injection H as <- _ _. split; [reflexivity|]. right. left.
      destruct Hsd as [Hn | (s & dt' & Hs & Hne & Hp & Hdt)]; [discriminate|].
      injection Hdt as <-. exists s. split; [exact Hs|]. split; [exact Hne|].
      rewrite (storable_eq s "Invalid start_date format"), Hp, Bd. reflexivity. }
    destruct start_s as [s|].
    + destruct (String.eqb_spec s "") as [->|Hne].
      * apply Hins. left. reflexivity.
      * destruct (parse_date s "Invalid start_date format") as [dt|c1 d1] eqn:Es.
        -- apply Hins. right. exists s, dt. repeat split; assumption.
        -- intros H. injection H as <- _ _. right. left.
           exact (parse_date_status _ _ _ _ Es).
    + apply Hins. left. reflexivity.
  - intros announcement_id msg end_s start_s.
    rewrite update_announcement_bson_outcome.
    destruct (find_teacher teacher_username db) as [t|];
      [|intros H; injection H as <- _ _; left; reflexivity].
    destruct (ObjectId announcement_id) as [oid|];
      [|intros H; injection H as <- _ _; right; left; reflexivity].
    destruct (build_update msg end_s start_s) as [[|e u]|c0 d0] eqn:Eu.
    + intros H; injection H as <- _ _; right; left; reflexivity.
    + pose proof (build_update_encoded _ _ _ _ Eu) as Henc.
      destruct (encode_update to_bson (e :: u)) as [update'|].
      * destruct (find_one oid (announcements_collection db)); [discriminate|].
        intros H; injection H as <- _ _; right; right; left; reflexivity.
      * intros H; injection H as <- _ _. right. right. right.
        split; [reflexivity | exact Henc].
    + intros H. injection H as <- _ _. right. left.
      exact (build_update_status _ _ _ _ _ Eu).
  - intros announcement_id. rewrite delete_announcement_outcome.
    destruct (find_teacher teacher_username db) as [t|];
      [|intros H; injection H as <- _ _; left; reflexivity].
    destruct (ObjectId announcement_id) as [oid|];
      [|intros H; injection H as <- _ _; right; left; reflexivity].
    destruct (find_one oid (announcements_collection db)); [discriminate|].
    intros H; injection H as <- _ _; right; right; reflexivity.
Qed.

(** X20. Create, then update by the returned id, over a store that encodes
    its dates.  When the library reads the rendered id back, an update call
    by a known teacher that provides only a message, with the [id] of the
    view a create call has just returned, answers the view the full listing
    shows for the created record, with the message replaced: it has the id
    and the creator of the view the create call answered, and the end date
    and the creation time as the store keeps them.  The stored collection
    is the earlier one followed by the stored document with the new
    message. *)
Theorem create_bson_then_update_message (msg end_s : string) (start_s : option string)
      (teacher_username requester : string) (now : datetime)
      (db db' : database) (v : View.t) (m : string) :
  ids_issued db ->
  ObjectId (str_of_oid (next_oid db)) = Some (next_oid db) ->
  create_announcement_bson to_bson msg end_s start_s teacher_username now db
  = (OK v, db') ->
  In requester (teachers_collection db) ->
  exists (views : list View.t) (listed : View.t) (stored : document)
         (db'' : database) (e e' c' : datetime),
    get_all_announcements requester db' = OK views
    /\ In listed views
    /\ listed = _serialize stored
    /\ announcements_collection db' = announcements_collection db ++ [stored]
    /\ update_announcement_bson to_bson (View.id v) (Some m) None None requester db'
       = (OK (with_message listed m), db'')
    /\ announcements_collection db''
       = announcements_collection db ++ [set_field stored (set_message m)]
    /\ View.id listed = View.id v
    /\ View.created_by listed = Some teacher_username
    /\ View.created_by v = Some teacher_username
    /\ parse_date end_s "Invalid end_date format" = OK e
    /\ to_bson e = Some e'
    /\ View.end_date listed = Some (isoformat e')
    /\ to_bson now = Some c'
    /\ View.created_at listed = Some (isoformat c').
Proof.
  intros Hiss Hrt Hc Hr.
  destruct (create_bson_inv _ _ _ _ _ _ _ _ Hc)
    as (e & e' & c' & s & s' & Ht & He & Hs & Hbe & Hbs & Hbc & -> & ->).
  set (stored := mkDoc (Some (next_oid db)) (Some msg) s' (Some e')
                       (Some teacher_username) (Some c')).
  assert (forall d, In d (announcements_collection db) ->
                    has_id (next_oid db) d = false) as Hfresh
      by (intros d Hd; exact (issued_fresh db d Hiss Hd)).
  assert (has_id (next_oid db) stored = true) as Hst
      by (unfold has_id; simpl; apply N.eqb_refl).
  exists (map _serialize
              (sort_end_date (announcements_collection db ++ [stored]))),
         (_serialize stored), stored.
  eexists. exists e, e', c'.
  split.
  { unfold get_all_announcements, find_teacher.
    cbn [teachers_collection announcements_collection].
    fold (find_teacher requester db). rewrite (find_teacher_known _ _ Hr).
    reflexivity. }
  split.
  { apply in_map, sort_end_date_In, in_or_app. right. left. reflexivity. }
  split; [reflexivity|]. split; [reflexivity|].
  split.
  { rewrite update_announcement_bson_outcome. cbn [View.id _serialize _id].
    unfold find_teacher. cbn [teachers_collection announcements_collection].
    fold (find_teacher requester db). rewrite (find_teacher_known _ _ Hr), Hrt.
    cbn [build_update bind app encode_update encode_entry].
    rewrite (find_one_app_last _ _ _ Hfresh Hst),
            (update_one_app_last _ _ _ _ Hfresh Hst).
    reflexivity. }
  split; [reflexivity|]. split; [reflexivity|]. split; [reflexivity|].
  split; [reflexivity|]. split; [exact He|]. split; [exact Hbe|].
  split; [reflexivity|]. split; [exact Hbc | reflexivity].
Qed.

End EncodedStore.


(** ** The encoding store on the sample database *)

Section EncodedStoreOnSample.
Import PyLibrary.

(** The time of a call, with microseconds. *)
Lemma bson_keeps_milliseconds :
  py_to_bson (mkDate 2026 1 10 8 30 0 123456 None)
  = Some (mkDate 2026 1 10 8 30 0 123000 None).
Proof. reflexivity. Qed.

(** A create call at a time with microseconds, then the full listing.  The
    view the call answered shows the microseconds; no listed view has that
    creation time, so the view answered is not in the listing. *)
Lemma created_at_not_listed :
  In "mchen" (teachers_collection Sample.db)
  /\ In "mrodriguez" (teachers_collection Sample.db)
  /\ exists v db' views,
      create_announcement_bson py_to_bson "Sports day" "2099-12-31" None "mchen"
                               (mkDate 2026 1 10 8 30 0 123456 None) Sample.db
      = (OK v, db')
      /\ get_all_announcements "mrodriguez" db' = OK views
      /\ View.created_at v = Some "2026-01-10T08:30:00.123456"
      /\ (forall w, In w views -> View.created_at w <> View.created_at v)
      /\ ~ In v views.
Proof.
  split; [exact sample_teacher|]. split; [simpl; tauto|].
  eexists. eexists. eexists. split; [reflexivity|]. split; [reflexivity|].
  split; [reflexivity|].
  assert (forall w : View.t,
             In w (map _serialize
                       (sort_end_date
                          (announcements_collection
                             (snd (create_announcement_bson
                                     py_to_bson "Sports day" "2099-12-31" None "mchen"
                                     (mkDate 2026 1 10 8 30 0 123456 None)
                                     Sample.db))))) ->
             View.created_at w <> Some "2026-01-10T08:30:00.123456") as Hno.
  { intros w Hw. vm_compute in Hw.
    destruct Hw as [<-|[<-|[<-|[<-|[]]]]]; discriminate. }
  split; [exact Hno|].
  intros Hin. exact (Hno _ Hin eq_refl).
Qed.

(** A create call on the sample database, then a listing by another
    teacher, at a time with microseconds: the new announcement is listed
    under the id 4, with the creation time the store kept. *)
Lemma create_then_list_all_stored_witness :
  ids_issued Sample.db
  /\ exists v db' views listed,
      create_announcement_bson py_to_bson "Sports day" "2099-12-31"
                               (Some "2099-12-01") "mchen"
                               (mkDate 2026 1 10 8 30 0 123456 None) Sample.db
      = (OK v, db')
      /\ In "mrodriguez" (teachers_collection db')
      /\ get_all_announcements "mrodriguez" db' = OK views
      /\ In listed views
      /\ View.id v = "000000000000000000000004"
      /\ View.id listed = "000000000000000000000004"
      /\ View.created_at v = Some "2026-01-10T08:30:00.123456"
      /\ View.created_at listed = Some "2026-01-10T08:30:00.123000".
Proof.
  assert (ids_issued Sample.db) as Hiss by reflexivity.
  split; [exact Hiss|].
  destruct (create_then_list_all_stored
              (L := py) py_to_bson "Sports day" "2099-12-31" (Some "2099-12-01")
              "mchen" "mrodriguez" (mkDate 2026 1 10 8 30 0 123456 None)
              Sample.db _ _ Hiss eq_refl (or_introl eq_refl))
    as (views & listed & oid & e & e' & c' & s & s' & H1 & H2 & H3 & H4 & _ & _
        & _ & _ & _ & _ & _ & _ & _ & _ & _ & _ & _ & _ & Hc' & H5 & H6 & _).
  eexists. eexists. exists views, listed.
  split; [reflexivity|]. split; [simpl; tauto|].
  split; [exact H1|]. split; [exact H2|].
  split; [reflexivity|]. split; [rewrite H4, <- H3; reflexivity|].
  split; [exact H5|].
  rewrite H6. vm_compute in Hc'. injection Hc' as <-. reflexivity.
Defined.

(** A new message and an end date with a time zone for the autumn term
    announcement: the answer shows the end date in UTC, as the store keeps
    it. *)
Lemma update_bson_sets_provided_fields_witness :
  In "mchen" (teachers_collection Sample.db)
  /\ storable py_to_bson "2026-02-01T10:00:00+02:00" = true
  /\ exists v db',
      update_announcement_bson py_to_bson "000000000000000000000002"
                               (Some "Clubs are full")
                               (Some "2026-02-01T10:00:00+02:00") None
                               "mchen" Sample.db = (OK v, db')
      /\ View.message v = Some "Clubs are full"
      /\ View.end_date v = Some "2026-02-01T08:00:00"
      /\ View.start_date v = Some "2025-09-01T00:00:00".
Proof.
  split; [exact sample_teacher|]. split; [reflexivity|].
  destruct (update_bson_sets_provided_fields
              (L := py) py_to_bson "000000000000000000000002" (Some "Clubs are full")
              (Some "2026-02-01T10:00:00+02:00") None "mchen" Sample.db 2
              Sample.autumn_term sample_teacher eq_refl eq_refl)
    as (v & doc' & db' & H1 & _ & Hm & (dt & dt' & Hp & Hb & He) & Hs & _ & _ & _
        & _ & Hvm & Hvs & Hve & _).
  - left. discriminate.
  - intros str H. injection H as <-. reflexivity.
  - discriminate.
  - exists v, db'. split; [exact H1|].
    split; [rewrite Hvm; exact Hm|].
    split.
    + rewrite Hve, He. vm_compute in Hp. injection Hp as <-.
      vm_compute in Hb. injection Hb as <-. reflexivity.
    + rewrite Hvs, Hs. reflexivity.
Defined.

Lemma update_bson_succeeds_iff_witness :
  exists v db',
    update_announcement_bson py_to_bson "000000000000000000000002" None None
                             (Some "2025-10-01") "mchen" Sample.db = (OK v, db').
Proof.
  apply (proj2 (update_bson_succeeds_iff (L := py) py_to_bson
                  "000000000000000000000002" None None (Some "2025-10-01")
                  "mchen" Sample.db)).
  split; [exact sample_teacher|].
  split; [exists 2%N, Sample.autumn_term; split; reflexivity|].
  split; [right; right; discriminate|].
  split; [discriminate|].
  intros str H _. injection H as <-. reflexivity.
Defined.

(** A create call whose start date is after its end date. *)
Lemma create_bson_succeeds_iff_witness :
  exists v db',
    create_announcement_bson py_to_bson "Sports day" "2026-03-01"
                             (Some "2026-06-01") "mchen" Sample.now Sample.db
    = (OK v, db').
Proof.
  apply (proj2 (proj1 (create_bson_succeeds_iff
                         (L := py) py_to_bson "Sports day" "2026-03-01"
                         (Some "2026-06-01") "mchen" Sample.now Sample.db))).
  split; [exact sample_teacher|]. split; [reflexivity|].
  split; [right; exists "2026-06-01"; split; reflexivity|].
  discriminate.
Defined.

(** A create call with an end date that parses and that the store cannot
    encode: the first hour of the year 1, one hour east of UTC. *)
Lemma failure_status_codes_bson_witness :
  parses "0001-01-01T00:00:00+01:00" = true
  /\ storable py_to_bson "0001-01-01T00:00:00+01:00" = false
  /\ create_announcement_bson py_to_bson "Sports day" "0001-01-01T00:00:00+01:00"
                              None "mchen" Sample.now Sample.db
     = (HTTPException 500 "Internal Server Error", Sample.db)
  /\ (500 = 401 \/ 500 = 400
      \/ (500 = 500
          /\ (storable py_to_bson "0001-01-01T00:00:00+01:00" = false
              \/ (exists s, @None string = Some s /\ s <> ""
                            /\ storable py_to_bson s = false)
              \/ py_to_bson Sample.now = None))).
Proof.
  split; [reflexivity|]. split; [reflexivity|]. split; [reflexivity|].
  exact (proj1 (proj2 (failure_status_codes_bson
                         (L := py) py_to_bson "mchen" Sample.db Sample.db 500
                         "Internal Server Error"))
               "Sports day" "0001-01-01T00:00:00+01:00" None Sample.now eq_refl).
Defined.

(** Create at a time with microseconds, then a new message by the id of
    the answer: the update answers the creation time the store kept. *)
Lemma create_bson_then_update_message_witness :
  ids_issued Sample.db
  /\ ObjectId (str_of_oid (next_oid Sample.db)) = Some (next_oid Sample.db)
  /\ exists v db' v' db'',
      create_announcement_bson py_to_bson "Sports day" "2099-12-31" None "mchen"
                               (mkDate 2026 1 10 8 30 0 123456 None) Sample.db
      = (OK v, db')
      /\ update_announcement_bson py_to_bson (View.id v) (Some "Sports day is off")
                                  None None "mrodriguez" db' = (OK v', db'')
      /\ View.id v' = View.id v
      /\ View.message v' = Some "Sports day is off"
      /\ View.created_at v = Some "2026-01-10T08:30:00.123456"
      /\ View.created_at v' = Some "2026-01-10T08:30:00.123000".
Proof.
  assert (ids_issued Sample.db) as Hiss by reflexivity.
  split; [exact Hiss|]. split; [reflexivity|].
  destruct (create_bson_then_update_message
              (L := py) py_to_bson "Sports day" "2099-12-31" None "mchen"
              "mrodriguez" (mkDate 2026 1 10 8 30 0 123456 None) Sample.db _ _
              "Sports day is off" Hiss eq_refl eq_refl)
    as (views & listed & stored & db'' & e & e' & c' & _ & _ & _ & _ & Hu & _ & Hid
        & _ & _ & _ & _ & _ & Hc' & Hca).
  - simpl. tauto.
  - eexists. eexists. exists (with_message listed "Sports day is off"), db''.
    split; [reflexivity|]. split; [exact Hu|].
    split; [exact Hid|]. split; [reflexivity|]. split; [reflexivity|].
    simpl. rewrite Hca. vm_compute in Hc'. injection Hc' as <-. reflexivity.
Defined.

End EncodedStoreOnSample.
